(** * The chained transformer notebook (pipeline.ipynb), as a Rocq model

    The notebook is a linear script: six code cells, each loading a
    pre-trained model and calling it once, with the text produced by one
    cell handed to a later one through notebook globals.  The models and
    the [ollama] process are outside the repository; here they are the
    fields of a [world], arbitrary functions from what a call is given to
    what it answers (a value, or a raised exception).  The cells are
    written in a small state-and-exception monad whose state is what a
    notebook kernel keeps: the global namespace and everything the run has
    done so far (prints, model loads, model calls, subscripts, process
    launches).  A raised exception leaves that state as it was at the
    raise, as the kernel does. *)

From Stdlib Require Import ZArith NArith List String Ascii Bool Lia SpecFloat.
From stdpp Require Import base option list gmap strings.

Set Default Proof Using "Type".
Open Scope Z_scope.

(* ------------------------------------------------------------------ *)
(** ** Python text *)

(** A Python [str] is a sequence of Unicode code points. *)
Definition pystr : Type := list N.

(** A source literal; every literal of the notebook is ASCII. *)
Definition lit (s : string) : pystr :=
  map N_of_ascii (list_ascii_of_string s).

(** The escape [\n] of the source literals. *)
Definition nl : pystr := [10%N].

(** [str.isspace] on one code point (CPython's [Py_UNICODE_ISSPACE]). *)
Definition isspace (c : N) : bool :=
  ((9 <=? c) && (c <=? 13) || (28 <=? c) && (c <=? 32)
   || (c =? 133) || (c =? 160) || (c =? 5760)
   || (8192 <=? c) && (c <=? 8202)
   || (c =? 8232) || (c =? 8233) || (c =? 8239) || (c =? 8287)
   || (c =? 12288))%N.

(** [str.lstrip()], [str.rstrip()] and [str.strip()] with no argument. *)
Fixpoint lstrip (s : pystr) : pystr :=
  match s with
  | c :: s' => if isspace c then lstrip s' else s
  | [] => []
  end.

Definition rstrip (s : pystr) : pystr := rev (lstrip (rev s)).

Definition strip (s : pystr) : pystr := lstrip (rstrip s).

(** [s.startswith(p)] and [p in s]. *)
Fixpoint startswith (s p : pystr) : bool :=
  match p, s with
  | [], _ => true
  | a :: p', b :: s' => (a =? b)%N && startswith s' p'
  | _ :: _, [] => false
  end.

Fixpoint contains (s p : pystr) : bool :=
  startswith s p ||
  match s with
  | [] => false
  | _ :: s' => contains s' p
  end.

(** [list.__getitem__] with an integer: negative indices count from the
    end, anything outside [-len, len) is an [IndexError] (here [None]). *)
Definition list_getitem {A} (l : list A) (i : Z) : option A :=
  let n := Z.of_nat (length l) in
  if (0 <=? i) && (i <? n) then nth_error l (Z.to_nat i)
  else if (- n <=? i) && (i <? 0) then nth_error l (Z.to_nat (n + i))
  else None.

(* ------------------------------------------------------------------ *)
(** ** Exceptions *)

(** The exception classes a run can meet, with Python's hierarchy.
    [Derived name base] is a class defined by a library (transformers,
    torch, ...) as a subclass of [base]. *)
Inductive exn_class :=
| BaseException | SystemExit | KeyboardInterrupt | GeneratorExit
| Exception
| LookupError | IndexError | KeyError
| NameError | TypeError | ValueError | AttributeError | RuntimeError
| MemoryError | ImportError
| OSError | FileNotFoundError | PermissionError
| SubprocessError | CalledProcessError | TimeoutExpired
| Derived (name : string) (base : exn_class).

#[global] Instance exn_class_eq_dec : EqDecision exn_class.
Proof. solve_decision. Defined.

(** The proper ancestors of a class, nearest first. *)
Fixpoint superclasses (c : exn_class) : list exn_class :=
  match c with
  | BaseException => []
  | SystemExit | KeyboardInterrupt | GeneratorExit | Exception =>
      [BaseException]
  | LookupError | NameError | TypeError | ValueError | AttributeError
  | RuntimeError | MemoryError | ImportError | OSError | SubprocessError =>
      [Exception; BaseException]
  | IndexError | KeyError => [LookupError; Exception; BaseException]
  | FileNotFoundError | PermissionError =>
      [OSError; Exception; BaseException]
  | CalledProcessError | TimeoutExpired =>
      [SubprocessError; Exception; BaseException]
  | Derived _ base => base :: superclasses base
  end.

Definition issubclass (c d : exn_class) : bool :=
  bool_decide (d ∈ c :: superclasses c).

(** An exception object.  [subprocess.CalledProcessError] carries the exit
    status, the command and both captured streams. *)
Inductive exn :=
| Exc (cls : exn_class) (message : pystr)
| ProcessError (returncode : Z) (cmd : list pystr) (output stderr : pystr).

Definition class_of (e : exn) : exn_class :=
  match e with
  | Exc c _ => c
  | ProcessError _ _ _ _ => CalledProcessError
  end.

Definition isinstance (e : exn) (c : exn_class) : bool :=
  issubclass (class_of e) c.

(** What evaluating an expression gives: a value or a raised exception. *)
Inductive result (A : Type) :=
| Ok (a : A)
| Raised (e : exn).
Arguments Ok {A} a.
Arguments Raised {A} e.

(* ------------------------------------------------------------------ *)
(** ** The services outside the repository *)

(** A loaded [transformers.pipeline]: the task, the model and the device
    it was asked for. *)
Record pipe := Pipe {
  task : string;
  model : string;
  device : option Z
}.

(** A Python [float]: an IEEE 754 binary64 number, as its sign, mantissa
    and exponent. *)
Definition float : Type := spec_float.

(** The dictionaries the five tasks answer with, by their documented keys. *)
Record fill_item := FillItem {
  fm_score : float; fm_token : Z; fm_token_str : pystr; fm_sequence : pystr
}.
Record gen_item := GenItem { tg_generated_text : pystr }.
Record sent_item := SentItem { sa_label : pystr; sa_score : float }.
Record summ_item := SummItem { sm_summary_text : pystr }.
Record qa_item := QaItem {
  qa_score : float; qa_start : Z; qa_end : Z; qa_answer : pystr
}.

(** What is handed to a loaded pipeline when it is called. *)
Inductive request :=
| FillMask (text : pystr) (top_k : Z)
| TextGeneration (text : pystr) (max_length num_return_sequences : Z)
    (truncation : bool)
| TextClassification (text : pystr)
| Summarization (text : pystr) (max_length min_length : Z)
    (do_sample : bool)
| QuestionAnswering (question context : pystr).

(** How a launched command ends: it could not be started (or its streams
    could not be handled) and an exception comes out of [subprocess.run],
    or it ran to completion with an exit status and two captured streams. *)
Inductive process_outcome :=
| LaunchFailed (e : exn)
| Exited (returncode : Z) (stdout stderr : pystr).

Record world := World {
  hub_load : pipe → option exn;
  fill_mask : pipe → pystr → Z → result (list fill_item);
  text_generation : pipe → pystr → Z → Z → bool → result (list gen_item);
  text_classification : pipe → pystr → result (list sent_item);
  summarization : pipe → pystr → Z → Z → bool → result (list summ_item);
  question_answering : pipe → pystr → pystr → result qa_item;
  os_process : list pystr → pystr → process_outcome
}.

(* ------------------------------------------------------------------ *)
(** ** The kernel state and the monad of cells *)

(** The objects the chain binds to global names. *)
Inductive pyval :=
| VStr (s : pystr)
| VFloat (x : float)
| VPipeline (p : pipe)
| VFillResults (l : list fill_item)
| VGenerated (l : list gen_item)
| VSentiments (l : list sent_item)
| VSummaries (l : list summ_item)
| VAnswer (r : qa_item).

(** One piece of a printed f-string: literal text, an interpolated string,
    a float under [:.2f], or [str(e)] of an exception. *)
Inductive piece :=
| Lit (s : pystr)
| Text (s : pystr)
| Fixed2 (x : float)
| ExnText (e : exn).

Inductive event :=
| EvPrint (line : list piece)
| EvSetEnv (key value : pystr)
| EvLoad (p : pipe)
| EvInfer (p : pipe) (rq : request)
| EvSubscript (name : string) (index : Z) (len : nat)
| EvSubprocess (command : list pystr) (input : pystr)
    (text capture_output check : bool).

(** [log] is newest first. *)
Record state := State {
  globals : gmap string pyval;
  log : list event
}.

Definition M (A : Type) : Type := state → result A * state.

Definition ret {A} (a : A) : M A := λ st, (Ok a, st).

Definition raise {A} (e : exn) : M A := λ st, (Raised e, st).

Definition bind {A B} (m : M A) (k : A → M B) : M B :=
  λ st, match m st with
        | (Ok a, st') => k a st'
        | (Raised e, st') => (Raised e, st')
        end.

Declare Scope cell_scope.
Delimit Scope cell_scope with cell.
Bind Scope cell_scope with M.
Notation "'let*' x ':=' m 'in' k" := (bind m (λ x, k))
  (at level 10, x name, m at level 100, k at level 200) : cell_scope.
Notation "m ';;;' k" := (bind m (λ _, k))
  (at level 100, k at level 200, right associativity) : cell_scope.
Open Scope cell_scope.

(** [try: body / except cls as e: handler e]. *)
Definition try_except {A} (body : M A) (cls : exn_class)
    (handler : exn → M A) : M A :=
  λ st, match body st with
        | (Raised e, st') =>
            if isinstance e cls then handler e st' else (Raised e, st')
        | done => done
        end.

Definition emit (ev : event) : M unit :=
  λ st, (Ok tt, State (globals st) (ev :: log st)).

Definition print (line : list piece) : M unit := emit (EvPrint line).

(** [name = v] at the top level of a cell. *)
Definition assign (name : string) (v : pyval) : M unit :=
  λ st, (Ok tt, State (<[name := v]> (globals st)) (log st)).

(** Reading a global that a previous cell bound to a string.  An unbound
    name is a [NameError]; the chain binds each name at one type only, so
    the other branch is not reached by a run from the empty namespace. *)
Definition load_str (name : string) : M pystr :=
  λ st, match globals st !! name with
        | Some (VStr s) => (Ok s, st)
        | Some _ => (Raised (Exc TypeError (lit name)), st)
        | None => (Raised (Exc NameError (lit name)), st)
        end.

Definition index_error : exn := Exc IndexError (lit "list index out of range").

(** [l[i]] on a result list bound to [name]. *)
Definition subscript {A} (name : string) (l : list A) (i : Z) : M A :=
  emit (EvSubscript name i (length l)) ;;;
  match list_getitem l i with
  | Some x => ret x
  | None => raise index_error
  end.

(* ------------------------------------------------------------------ *)
(** ** Library calls *)

(** [subprocess.CompletedProcess]; a stream that was not captured is
    [None]. *)
Record completed_process := Completed {
  args : list pystr;
  returncode : Z;
  stdout : option pystr;
  stderr : option pystr
}.

Section Notebook.

Variable w : world.

(** [transformers.pipeline(task, model=..., device=...)]. *)
Definition pipeline (task model : string) (device : option Z) : M pipe :=
  let p := Pipe task model device in
  emit (EvLoad p) ;;;
  match hub_load w p with
  | Some e => raise e
  | None => ret p
  end.

(** Calling a loaded pipeline: the request goes out, the answer (or the
    exception) comes back. *)
Definition infer {A} (p : pipe) (rq : request) (answer : result A) : M A :=
  emit (EvInfer p rq) ;;;
  match answer with
  | Ok a => ret a
  | Raised e => raise e
  end.

(** [subprocess.run(command, input=..., text=..., capture_output=...,
    check=...)]: one launch, the input written to the standard input, a
    wait for the exit; with [check] a non-zero status is raised as
    [CalledProcessError]. *)
Definition subprocess_run (command : list pystr) (input : pystr)
    (text capture_output check : bool) : M completed_process :=
  emit (EvSubprocess command input text capture_output check) ;;;
  match os_process w command input with
  | LaunchFailed e => raise e
  | Exited rc out err =>
      if check && negb (rc =? 0)
      then raise (ProcessError rc command out err)
      else ret (Completed command rc
                  (if capture_output then Some out else None)
                  (if capture_output then Some err else None))
  end.

(* ------------------------------------------------------------------ *)
(** ** The cells of the chain *)

(** Step 0: [os.environ["TOKENIZERS_PARALLELISM"] = "false"]. *)
Definition step0_setup : M unit :=
  emit (EvSetEnv (lit "TOKENIZERS_PARALLELISM") (lit "false")).

Definition masked_sentence : pystr := lit "Renewable energy reduces [MASK].".

(** Step 1: fill-mask. *)
Definition step1_fill_mask : M unit :=
  print [Lit (lit "Step 1: Performing fill-mask task...")] ;;;
  let* mask_filler := pipeline "fill-mask" "bert-base-uncased" None in
  assign "mask_filler" (VPipeline mask_filler) ;;;
  assign "masked_sentence" (VStr masked_sentence) ;;;
  let* fill_results :=
    infer mask_filler (FillMask masked_sentence 1)
      (fill_mask w mask_filler masked_sentence 1) in
  assign "fill_results" (VFillResults fill_results) ;;;
  let* top := subscript "fill_results" fill_results 0 in
  let unmasked_sentence := fm_sequence top in
  assign "unmasked_sentence" (VStr unmasked_sentence) ;;;
  print [Lit (lit "Input Sentence: "); Text masked_sentence] ;;;
  print [Lit (lit "Unmasked Sentence: "); Text unmasked_sentence; Lit nl].

(** Step 2: text generation. *)
Definition step2_generate : M unit :=
  print [Lit (lit "Step 2: Generating text with GPT-2...")] ;;;
  let* text_generator := pipeline "text-generation" "gpt2" None in
  assign "text_generator" (VPipeline text_generator) ;;;
  let* unmasked_sentence := load_str "unmasked_sentence" in
  let* generated_texts :=
    infer text_generator (TextGeneration unmasked_sentence 100 1 true)
      (text_generation w text_generator unmasked_sentence 100 1 true) in
  assign "generated_texts" (VGenerated generated_texts) ;;;
  let* first := subscript "generated_texts" generated_texts 0 in
  let generated_text := tg_generated_text first in
  assign "generated_text" (VStr generated_text) ;;;
  print [Lit (lit "Generated Text: "); Text generated_text; Lit nl].

(** Step 3: sentiment analysis. *)
Definition step3_sentiment : M unit :=
  print [Lit (lit "Step 3: Analyzing sentiment...")] ;;;
  let* sentiment_analyzer :=
    pipeline "sentiment-analysis"
      "distilbert/distilbert-base-uncased-finetuned-sst-2-english" None in
  assign "sentiment_analyzer" (VPipeline sentiment_analyzer) ;;;
  let* generated_text := load_str "generated_text" in
  let* sentiment_results :=
    infer sentiment_analyzer (TextClassification generated_text)
      (text_classification w sentiment_analyzer generated_text) in
  assign "sentiment_results" (VSentiments sentiment_results) ;;;
  let* r0 := subscript "sentiment_results" sentiment_results 0 in
  let sentiment := sa_label r0 in
  assign "sentiment" (VStr sentiment) ;;;
  let* r0' := subscript "sentiment_results" sentiment_results 0 in
  let confidence := sa_score r0' in
  assign "confidence" (VFloat confidence) ;;;
  print [Lit (lit "Sentiment: "); Text sentiment;
         Lit (lit " | Confidence: "); Fixed2 confidence; Lit nl].

Definition no_summary : pystr := lit "No summary available.".

(** Step 4: summarization, inside [try ... except Exception]. *)
Definition step4_summarize : M unit :=
  print [Lit (lit "Step 4: Summarizing the text...")] ;;;
  let* summarizer :=
    pipeline "summarization" "facebook/bart-large-cnn" (Some (-1)) in
  assign "summarizer" (VPipeline summarizer) ;;;
  try_except
    (let* generated_text := load_str "generated_text" in
     let* summary :=
       infer summarizer (Summarization generated_text 100 10 false)
         (summarization w summarizer generated_text 100 10 false) in
     assign "summary" (VSummaries summary) ;;;
     let* first := subscript "summary" summary 0 in
     let summary_text := sm_summary_text first in
     assign "summary_text" (VStr summary_text) ;;;
     print [Lit (lit "Summary: "); Text summary_text])
    Exception
    (λ e,
     print [Lit (lit "Summarization failed: "); ExnText e] ;;;
     assign "summary_text" (VStr no_summary)).

Definition ollama_command : list pystr :=
  [lit "ollama"; lit "run"; lit "llama3.2"].

Definition fallback_question : pystr :=
  lit "What are the key points mentioned in the summary?".

(** The f-string of [generate_question_with_instruction]. *)
Definition instruction_of (summary_text : pystr) : pystr :=
  lit "Generate a simple question based on the following summary:"
  ++ nl ++ nl ++ summary_text ++ nl ++ nl ++ lit "Question:".

(** Step 5: the function of the cell ... *)
Definition generate_question_with_instruction (summary_text : pystr)
    : M pystr :=
  print [Lit (lit "Generating a question based on the summary...")] ;;;
  let instruction := instruction_of summary_text in
  try_except
    (let command := ollama_command in
     let* result := subprocess_run command instruction true true true in
     let* question :=
       match stdout result with
       | Some out => ret (strip out)
       | None => raise (Exc AttributeError (lit "strip"))
       end in
     print [Lit (lit "Generated Question: "); Text question] ;;;
     ret question)
    CalledProcessError
    (λ e,
     print [Lit (lit "Error using Ollama: "); ExnText e] ;;;
     ret fallback_question).

(** ... and its one call. *)
Definition step5_question : M unit :=
  let* summary_text := load_str "summary_text" in
  let* question := generate_question_with_instruction summary_text in
  assign "question" (VStr question).

(** Step 6: question answering, with the summary as context. *)
Definition step6_answer : M unit :=
  print [Lit (lit "Step 6: Question answering task...")] ;;;
  let* qa_pipeline :=
    pipeline "question-answering"
      "google-bert/bert-large-uncased-whole-word-masking-finetuned-squad"
      None in
  assign "qa_pipeline" (VPipeline qa_pipeline) ;;;
  let* context := load_str "summary_text" in
  assign "context" (VStr context) ;;;
  let* question := load_str "question" in
  let* qa_result :=
    infer qa_pipeline (QuestionAnswering question context)
      (question_answering w qa_pipeline question context) in
  assign "qa_result" (VAnswer qa_result) ;;;
  let answer := qa_answer qa_result in
  assign "answer" (VStr answer) ;;;
  print [Lit (lit "Answer: "); Text answer; Lit nl].

(** The code cells of the chain, top to bottom. *)
Definition cells : list (M unit) :=
  [step0_setup; step1_fill_mask; step2_generate; step3_sentiment;
   step4_summarize; step5_question; step6_answer].

(** Running cells in order; the first uncaught exception stops the run. *)
Fixpoint run_all (cs : list (M unit)) : M unit :=
  match cs with
  | [] => ret tt
  | c :: cs' => c ;;; run_all cs'
  end.

Definition chain : M unit := run_all cells.

End Notebook.

(* ------------------------------------------------------------------ *)
(** ** A fresh kernel, and the models the chain loads *)

(** A fresh kernel. *)
Definition fresh : state := State ∅ [].

(** The five pipelines the chain loads. *)
Definition mask_filler_pipe : pipe :=
  Pipe "fill-mask" "bert-base-uncased" None.
Definition text_generator_pipe : pipe := Pipe "text-generation" "gpt2" None.
Definition sentiment_pipe : pipe :=
  Pipe "sentiment-analysis"
    "distilbert/distilbert-base-uncased-finetuned-sst-2-english" None.
Definition summarizer_pipe : pipe :=
  Pipe "summarization" "facebook/bart-large-cnn" (Some (-1)).
Definition qa_pipe : pipe :=
  Pipe "question-answering"
    "google-bert/bert-large-uncased-whole-word-masking-finetuned-squad" None.

(* ------------------------------------------------------------------ *)
(** ** Observations on a run *)

Definition is_launch (ev : event) : bool :=
  match ev with
  | EvSubprocess _ _ _ _ _ => true
  | _ => false
  end.

(** The process launches of a log, newest first. *)
Definition launches (l : list event) : list event := List.filter is_launch l.

(** What the process has been handed when it answers. *)
Definition asked (s : pystr) (st : state) : list event :=
  EvSubprocess ollama_command (instruction_of s) true true true
  :: EvPrint [Lit (lit "Generating a question based on the summary...")]
  :: log st.

(** The state in which step 6 calls its model. *)
Definition qa_ready (st : state) (s : pystr) : gmap string pyval :=
  <["context" := VStr s]> (<["qa_pipeline" := VPipeline qa_pipe]> (globals st)).

Definition qa_asked (st : state) (q s : pystr) : list event :=
  EvInfer qa_pipe (QuestionAnswering q s)
  :: EvLoad qa_pipe
  :: EvPrint [Lit (lit "Step 6: Question answering task...")]
  :: log st.

(** The [except Exception] branch of step 4, entered in [st] with [e]. *)
Definition summarize_failed (e : exn) (st : state) : result unit * state :=
  if isinstance e Exception
  then (Ok tt,
        State (<["summary_text" := VStr no_summary]> (globals st))
          (EvPrint [Lit (lit "Summarization failed: "); ExnText e] :: log st))
  else (Raised e, st).

(* ------------------------------------------------------------------ *)
(** ** The instruction template, as the specification words it *)

(** The template text of the specification, with its [{summary}] hole. *)
Definition spec_template : pystr :=
  lit "Generate a simple question based on the following summary:"
  ++ nl ++ nl ++ lit "{summary}" ++ nl ++ nl ++ lit "Question:".

(** Replacing the first occurrence of [hole] in [template] by [value];
    the inserted text is not scanned again. *)
Fixpoint substitute (hole value template : pystr) : pystr :=
  if startswith template hole then value ++ drop (length hole) template
  else match template with
       | [] => []
       | c :: rest => c :: substitute hole value rest
       end.

(* ------------------------------------------------------------------ *)
(** ** Properties of a run *)

(** The trimming as the specification words it: only trailing whitespace
    goes and the rest of the output stays. *)
Definition trailing_whitespace_only : Prop :=
  ∀ w st s out err,
    os_process w ollama_command (instruction_of s) = Exited 0 out err →
    fst (generate_question_with_instruction w s st) = Ok (rstrip out).

(** The summarizer's failure as the specification words it: whatever the
    summarizer raises, step 4 ends normally with [summary_text] bound to
    the sentinel. *)
Definition every_exception_is_replaced : Prop :=
  ∀ w st t e,
    globals st !! "generated_text" = Some (VStr t) →
    hub_load w summarizer_pipe = None →
    summarization w summarizer_pipe t 100 10 false = Raised e →
    ∃ st4, step4_summarize w st = (Ok tt, st4)
           ∧ globals st4 !! "summary_text"
             = Some (VStr (lit "No summary available.")).

(** What a call of the run was given, against the namespace [g] the run
    ends with: the mask filler is given the notebook's sentence, the
    generator the text bound to [unmasked_sentence], the sentiment model
    the text bound to [generated_text], the summarizer the text bound to
    one of [summarizer_source], the process the instruction built from
    [summary_text], and the question answerer [question] with
    [summary_text] as its context.  Each of these names is assigned once
    in the chain. *)
Definition handed_over (summarizer_source : list string)
    (g : gmap string pyval) (ev : event) : Prop :=
  match ev with
  | EvInfer _ (FillMask x _) => x = masked_sentence
  | EvInfer _ (TextGeneration x _ _ _) =>
      g !! "unmasked_sentence" = Some (VStr x)
  | EvInfer _ (TextClassification x) => g !! "generated_text" = Some (VStr x)
  | EvInfer _ (Summarization x _ _ _) =>
      ∃ name, name ∈ summarizer_source ∧ g !! name = Some (VStr x)
  | EvSubprocess _ input _ _ _ =>
      ∃ s, g !! "summary_text" = Some (VStr s) ∧ input = instruction_of s
  | EvInfer _ (QuestionAnswering q c) =>
      g !! "question" = Some (VStr q) ∧ g !! "summary_text" = Some (VStr c)
  | _ => True
  end.

(** The names step 3 binds: the output of stage 3. *)
Definition stage3_output : list string :=
  ["sentiment_results"; "sentiment"; "confidence"].

(** The name step 2 binds its text to: the output of stage 2. *)
Definition stage2_output : list string := ["generated_text"].

(** The names hold what the stages emitted: the first candidate's
    sequence, the first generated text, the first label, the first
    summary or the sentinel, the trimmed standard output or the fallback
    question. *)
Definition bound_to_outputs (w : world) (g : gmap string pyval) : Prop :=
  (∀ u, g !! "unmasked_sentence" = Some (VStr u) →
     ∃ top rest,
       fill_mask w mask_filler_pipe masked_sentence 1 = Ok (top :: rest)
       ∧ u = fm_sequence top)
  ∧ (∀ t, g !! "generated_text" = Some (VStr t) →
     ∃ u first rest,
       g !! "unmasked_sentence" = Some (VStr u)
       ∧ text_generation w text_generator_pipe u 100 1 true
         = Ok (first :: rest)
       ∧ t = tg_generated_text first)
  ∧ (∀ l, g !! "sentiment" = Some (VStr l) →
     ∃ t first rest,
       g !! "generated_text" = Some (VStr t)
       ∧ text_classification w sentiment_pipe t = Ok (first :: rest)
       ∧ l = sa_label first)
  ∧ (∀ s, g !! "summary_text" = Some (VStr s) →
     s = no_summary
     ∨ ∃ t first rest,
         g !! "generated_text" = Some (VStr t)
         ∧ summarization w summarizer_pipe t 100 10 false
           = Ok (first :: rest)
         ∧ s = sm_summary_text first)
  ∧ (∀ q, g !! "question" = Some (VStr q) →
     q = fallback_question
     ∨ ∃ s out err,
         g !! "summary_text" = Some (VStr s)
         ∧ os_process w ollama_command (instruction_of s) = Exited 0 out err
         ∧ q = strip out).

(** The hand-off as the specification words it: stage 4 is given the
    output of stage 3. *)
Definition handoff_as_specified : Prop :=
  ∀ w,
    Forall (handed_over stage3_output (globals (snd (chain w fresh))))
      (log (snd (chain w fresh))).

(** The four stages whose cell has no [try]. *)
Inductive bare_stage := MaskFilling | Generation | Sentiment | Answering.

(** The place of the stage's cell in [cells]. *)
Definition position (s : bare_stage) : nat :=
  match s with
  | MaskFilling => 1
  | Generation => 2
  | Sentiment => 3
  | Answering => 6
  end.

(** The model the stage loads. *)
Definition stage_pipe (s : bare_stage) : pipe :=
  match s with
  | MaskFilling => mask_filler_pipe
  | Generation => text_generator_pipe
  | Sentiment => sentiment_pipe
  | Answering => qa_pipe
  end.

(** A call that raises [e], or that answers with an empty list, of which
    the subscript then raises [e]. *)
Definition fails_with {A} (answer : result (list A)) (e : exn) : Prop :=
  answer = Raised e ∨ answer = Ok [] ∧ e = index_error.

(** The stage, entered in [st], raises [e]: from the loading of its model,
    from the call of the loaded model on the stage's input, or from the
    subscript of an empty answer. *)
Definition stage_raises (w : world) (s : bare_stage) (st : state) (e : exn)
    : Prop :=
  hub_load w (stage_pipe s) = Some e
  ∨ hub_load w (stage_pipe s) = None
    ∧ match s with
      | MaskFilling =>
          fails_with (fill_mask w mask_filler_pipe masked_sentence 1) e
      | Generation =>
          ∃ u, globals st !! "unmasked_sentence" = Some (VStr u)
               ∧ fails_with
                   (text_generation w text_generator_pipe u 100 1 true) e
      | Sentiment =>
          ∃ t, globals st !! "generated_text" = Some (VStr t)
               ∧ fails_with (text_classification w sentiment_pipe t) e
      | Answering =>
          ∃ s q, globals st !! "summary_text" = Some (VStr s)
                 ∧ globals st !! "question" = Some (VStr q)
                 ∧ question_answering w qa_pipe q s = Raised e
      end.

(** What the stage did last when it raised: it asked for its model, it
    called it, or it subscripted an empty answer. *)
Definition stage_event (s : bare_stage) (ev : event) : Prop :=
  ev = EvLoad (stage_pipe s)
  ∨ (∃ rq, ev = EvInfer (stage_pipe s) rq)
  ∨ ∃ name, ev = EvSubscript name 0 0.

(** A subscript of the chain is on one of the four result lists, at index
    0, and 0 is an index of the list. *)
Definition first_element_in_bounds (ev : event) : Prop :=
  match ev with
  | EvSubscript name i len =>
      name ∈ ["fill_results"; "generated_texts"; "sentiment_results";
              "summary"]
      ∧ i = 0 ∧ 0 ≤ i < Z.of_nat len
  | _ => True
  end.

(** No model answers with an empty list. *)
Definition answers_nonempty (w : world) : Prop :=
  (∀ p x k, fill_mask w p x k ≠ Ok [])
  ∧ (∀ p x a b c, text_generation w p x a b c ≠ Ok [])
  ∧ (∀ p x, text_classification w p x ≠ Ok [])
  ∧ (∀ p x a b c, summarization w p x a b c ≠ Ok []).

(* ------------------------------------------------------------------ *)
(** ** Worlds and kernels for the examples *)

(** The texts of the notebook's saved output. *)
Definition recorded_unmasked : pystr := lit "renewable energy reduces costs.".

Definition recorded_generated : pystr :=
  lit "renewable energy reduces costs. So far, however, efforts have been in vain to get nuclear power plants to meet the energy needs of the next generation.".

Definition recorded_summary : pystr :=
  lit "U.S. Energy Department moves forward with policy aimed at reducing greenhouse gas emissions associated with coal-fired power plants.".

Definition recorded_question : pystr :=
  lit "What is the main goal of the U.S. Energy Department's new policy regarding coal-fired power plants?".

Definition recorded_answer : pystr := lit "reducing greenhouse gas emissions".

(** The binary64 number nearest to 0.93, the confidence the output shows
    (with two decimals), and 0.25. *)
Definition recorded_confidence : float :=
  S754_finite false 0x1dc28f5c28f5c3 (-53).

Definition quarter : float := S754_finite false 0x10000000000000 (-54).

(** Every model loads and answers what the notebook's saved output shows
    (the generated text and the summary cut after their first sentence;
    the scores and the token that the output does not show are arbitrary);
    [ollama] exits with status 0 and ends its answer with a newline. *)
Definition recorded : world := {|
  hub_load := λ _, None;
  fill_mask := λ _ _ _,
    Ok [FillItem quarter 5366 (lit "costs") recorded_unmasked];
  text_generation := λ _ _ _ _ _, Ok [GenItem recorded_generated];
  text_classification := λ _ _,
    Ok [SentItem (lit "POSITIVE") recorded_confidence];
  summarization := λ _ _ _ _ _, Ok [SummItem recorded_summary];
  question_answering := λ _ _ _, Ok (QaItem quarter 58 91 recorded_answer);
  os_process := λ _ _, Exited 0 (recorded_question ++ nl) []
|}.

(** The recorded world with another end of the [ollama] process. *)
Definition with_process (o : process_outcome) : world := {|
  hub_load := hub_load recorded;
  fill_mask := fill_mask recorded;
  text_generation := text_generation recorded;
  text_classification := text_classification recorded;
  summarization := summarization recorded;
  question_answering := question_answering recorded;
  os_process := λ _ _, o
|}.

(** The recorded world with another answer of the summarizer. *)
Definition with_summarizer (r : result (list summ_item)) : world := {|
  hub_load := hub_load recorded;
  fill_mask := fill_mask recorded;
  text_generation := text_generation recorded;
  text_classification := text_classification recorded;
  summarization := λ _ _ _ _ _, r;
  question_answering := question_answering recorded;
  os_process := os_process recorded
|}.

(** [ollama] cannot find its model and exits with status 1. *)
Definition missing_model : world :=
  with_process (Exited 1 [] (lit "Error: model not found")).

(** The [ollama] executable is not installed. *)
Definition missing_ollama : world :=
  with_process (LaunchFailed (Exc FileNotFoundError (lit "ollama"))).

(** The process stand-in of the specification: status 0 and the question
    on the standard output. *)
Definition policy_shift : world :=
  with_process (Exited 0 (lit "What caused the policy shift?") []).

(** A process whose answer starts with a blank line. *)
Definition blank_line_first : world :=
  with_process (Exited 0 (nl ++ lit "What caused the policy shift?" ++ nl) []).

(** The run of the summarizer is interrupted from the keyboard. *)
Definition interrupted : world :=
  with_summarizer (Raised (Exc KeyboardInterrupt [])).

(** The summarizer runs out of memory. *)
Definition out_of_memory : world :=
  with_summarizer (Raised (Exc MemoryError (lit "out of memory"))).

(** The sentiment model crashes when it is called. *)
Definition sentiment_crash : world := {|
  hub_load := hub_load recorded;
  fill_mask := fill_mask recorded;
  text_generation := text_generation recorded;
  text_classification := λ _ _,
    Raised (Exc RuntimeError (lit "MPS backend out of memory"));
  summarization := summarization recorded;
  question_answering := question_answering recorded;
  os_process := os_process recorded
|}.

(** A kernel in which steps 1 to 4 have left [s] as the summary. *)
Definition summarized (s : pystr) : state :=
  State (<["summary_text" := VStr s]> ∅) [].

(** A kernel in which steps 1 and 2 have left [t] as the generated text. *)
Definition generated (t : pystr) : state :=
  State (<["generated_text" := VStr t]> ∅) [].

(* ------------------------------------------------------------------ *)
(** ** More properties of a run *)

(** The stage an event belongs to, for the model calls and the launch. *)
Definition stage_of (ev : event) : option nat :=
  match ev with
  | EvInfer _ (FillMask _ _) => Some 1%nat
  | EvInfer _ (TextGeneration _ _ _ _) => Some 2%nat
  | EvInfer _ (TextClassification _) => Some 3%nat
  | EvInfer _ (Summarization _ _ _ _) => Some 4%nat
  | EvSubprocess _ _ _ _ _ => Some 5%nat
  | EvInfer _ (QuestionAnswering _ _) => Some 6%nat
  | _ => None
  end.

(** The stages that have called their model (or launched the process),
    oldest first. *)
Definition stages_run (l : list event) : list nat := omap stage_of (rev l).


(** The recorded world with a summarizer that answers with no summary. *)
Definition no_summaries : world := with_summarizer (Ok []).

(** The recorded world with a silent [ollama]: status 0 and blank lines. *)
Definition silent_ollama : world := with_process (Exited 0 (nl ++ nl) []).

(** The recorded world without the summarization model. *)
Definition summarizer_missing : world := {|
  hub_load := λ p,
    if bool_decide (task p = "summarization")
    then Some (Exc OSError (lit "facebook/bart-large-cnn is not a local folder"))
    else None;
  fill_mask := fill_mask recorded;
  text_generation := text_generation recorded;
  text_classification := text_classification recorded;
  summarization := summarization recorded;
  question_answering := question_answering recorded;
  os_process := os_process recorded
|}.

(* ------------------------------------------------------------------ *)
(** ** The two stand-alone tasks of the notebook *)

(** The binary64 number nearest to 0.7. *)
Definition seven_tenths : float := S754_finite false 0x16666666666666 (-53).

(** Task 1 (sentiment over five texts) and Task 2 (GPT-2 generation) come
    before the chain and share nothing with it but the kernel.  They bind
    objects the chain never does (a list of texts, a dictionary, a model,
    a tokenizer, a tensor) and call services the chain never does, so they
    have their namespace, their log and their world here. *)
Module Tasks.

(** A tensor of token ids: a batch of sequences. *)
Definition tensor : Type := list (list Z).

(** The objects the two cells bind to global names. *)
Inductive obj :=
| OStr (s : pystr)
| OFloat (x : float)
| OPipeline (p : pipe)
| OTexts (l : list pystr)
| OResults (l : list sent_item)
| OResult (r : sent_item)
| OMapping (m : gmap (list N) (list N))
| OModel (name : string)
| OTokenizer (name : string)
| OTensor (t : tensor).

(** A piece of a printed f-string: one of the chain's, or the [repr] of a
    list of strings. *)
Inductive out_piece :=
| Plain (p : piece)
| ReprTexts (l : list pystr).

Inductive act :=
| Printed (line : list out_piece)
| Loaded (p : pipe)
| Classified (p : pipe) (texts : list pystr)
| FromPretrained (class name : string)
| Encoded (tokenizer : string) (text : pystr) (return_tensors : string)
| Generated (model : string) (inputs : tensor)
    (max_length num_return_sequences no_repeat_ngram_size : Z)
    (temperature : float)
| Subscripted (name : string) (index : Z) (len : nat)
| Decoded (tokenizer : string) (ids : list Z) (skip_special_tokens : bool).

Record services := Services {
  load : pipe → option exn;
  classify : pipe → list pystr → result (list sent_item);
  from_pretrained : string → string → option exn;
  encode : string → pystr → string → result tensor;
  generate : string → tensor → Z → Z → Z → float → result tensor;
  decode : string → list Z → bool → result pystr
}.

(** [done] is newest first. *)
Record kernel := Kernel {
  names : gmap string obj;
  done : list act
}.

Definition T (A : Type) : Type := kernel → result A * kernel.

Definition ret {A} (a : A) : T A := λ k, (Ok a, k).

Definition raise {A} (e : exn) : T A := λ k, (Raised e, k).

Definition bind {A B} (m : T A) (f : A → T B) : T B :=
  λ k, match m k with
       | (Ok a, k') => f a k'
       | (Raised e, k') => (Raised e, k')
       end.

Declare Scope task_scope.
Delimit Scope task_scope with task.
Bind Scope task_scope with T.
Notation "'let*' x ':=' m 'in' f" := (bind m (λ x, f))
  (at level 10, x name, m at level 100, f at level 200) : task_scope.
Notation "m ';;;' f" := (bind m (λ _, f))
  (at level 100, f at level 200, right associativity) : task_scope.
Local Open Scope task_scope.

Definition emit (a : act) : T unit :=
  λ k, (Ok tt, Kernel (names k) (a :: done k)).

Definition print (line : list out_piece) : T unit := emit (Printed line).

Definition say (s : string) : T unit := print [Plain (Lit (lit s))].

Definition assign (name : string) (v : obj) : T unit :=
  λ k, (Ok tt, Kernel (<[name := v]> (names k)) (done k)).

(** What a service answers, handed on: the value, or the exception. *)
Definition answer {A} (r : result A) : T A :=
  match r with
  | Ok a => ret a
  | Raised e => raise e
  end.

(** [for x in xs: body(x)], for a body without [break]. *)
Fixpoint for_each {A} (xs : list A) (body : A → T unit) : T unit :=
  match xs with
  | [] => ret tt
  | x :: xs' => body x ;;; for_each xs' body
  end.

(** [d.get(key, default)]. *)
Definition dict_get (d : gmap (list N) (list N)) (key default : pystr)
    : pystr :=
  match d !! key with
  | Some v => v
  | None => default
  end.

(** [t[i]] on a tensor bound to [name]: a row, or an [IndexError]. *)
Definition subscript (name : string) (t : tensor) (i : Z) : T (list Z) :=
  emit (Subscripted name i (length t)) ;;;
  match list_getitem t i with
  | Some row => ret row
  | None => raise index_error
  end.

Section Cells.

Variable w : services.

Definition pipeline (task model : string) : T pipe :=
  let p := Pipe task model None in
  emit (Loaded p) ;;;
  match load w p with
  | Some e => raise e
  | None => ret p
  end.

Definition texts : list pystr :=
  [lit "I love using this library! It's so intuitive and powerful.";
   lit "This is the worst app I've ever used. Completely useless.";
   lit "It's okay, does the job but nothing extraordinary.";
   lit "Absolutely fantastic! Highly recommended to everyone.";
   lit "Terrible experience, would never use it again."].

Definition label_mapping : gmap (list N) (list N) :=
  <[lit "LABEL_0" := lit "negative"]>
    (<[lit "LABEL_1" := lit "neutral"]>
       (<[lit "LABEL_2" := lit "positive"]> ∅)).

(** The body of the loop of Task 1, for one pair of [zip(texts,
    results)]. *)
Definition show_result (pair : pystr * sent_item) : T unit :=
  let '(text, result) := pair in
  assign "text" (OStr text) ;;;
  assign "result" (OResult result) ;;;
  let sentiment := dict_get label_mapping (sa_label result) (lit "unknown") in
  assign "sentiment" (OStr sentiment) ;;;
  let score := sa_score result in
  assign "score" (OFloat score) ;;;
  print [Plain (Lit (lit "Text: ")); Plain (Text text)] ;;;
  print [Plain (Lit (lit "  Sentiment: ")); Plain (Text sentiment);
         Plain (Lit (lit " | Confidence: ")); Plain (Fixed2 score);
         Plain (Lit nl)].

(** Task 1: sentiment analysis of five texts in one call. *)
Definition task1_sentiment : T unit :=
  let* sentiment_analyzer :=
    pipeline "text-classification"
      "cardiffnlp/twitter-roberta-base-sentiment" in
  assign "sentiment_analyzer" (OPipeline sentiment_analyzer) ;;;
  say "Defining input texts..." ;;;
  assign "texts" (OTexts texts) ;;;
  print [Plain (Lit (lit "Input Texts: ")); ReprTexts texts; Plain (Lit nl)] ;;;
  say "Performing sentiment analysis..." ;;;
  emit (Classified sentiment_analyzer texts) ;;;
  let* results := answer (classify w sentiment_analyzer texts) in
  assign "results" (OResults results) ;;;
  assign "label_mapping" (OMapping label_mapping) ;;;
  print [Plain (Lit (nl ++ lit "--- Sentiment Analysis Results ---" ++ nl))] ;;;
  for_each (zip texts results) show_result.

Definition input_text : pystr :=
  lit "Please translate 'Artificial Intelligence' into German.".

(** [Class.from_pretrained(name)]. *)
Definition load_pretrained (class name : string) : T unit :=
  emit (FromPretrained class name) ;;;
  match from_pretrained w class name with
  | Some e => raise e
  | None => ret tt
  end.

(** Task 2: one continuation of a prompt with GPT-2. *)
Definition task2_generation : T unit :=
  load_pretrained "GPT2LMHeadModel" "gpt2" ;;;
  assign "model" (OModel "gpt2") ;;;
  load_pretrained "GPT2Tokenizer" "gpt2" ;;;
  assign "tokenizer" (OTokenizer "gpt2") ;;;
  assign "input_text" (OStr input_text) ;;;
  emit (Encoded "gpt2" input_text "pt") ;;;
  let* inputs := answer (encode w "gpt2" input_text "pt") in
  assign "inputs" (OTensor inputs) ;;;
  emit (Generated "gpt2" inputs 160 1 2 seven_tenths) ;;;
  let* outputs := answer (generate w "gpt2" inputs 160 1 2 seven_tenths) in
  assign "outputs" (OTensor outputs) ;;;
  let* first := subscript "outputs" outputs 0 in
  emit (Decoded "gpt2" first true) ;;;
  let* generated_text := answer (decode w "gpt2" first true) in
  assign "generated_text" (OStr generated_text) ;;;
  print [Plain (Lit (lit "Generated Text: ")); Plain (Text generated_text)].

End Cells.

(** A fresh kernel. *)
Definition fresh : kernel := Kernel ∅ [].

(** What the run has printed, oldest line first. *)
Definition printed (k : kernel) : list (list out_piece) :=
  omap (λ a, match a with Printed line => Some line | _ => None end)
    (rev (done k)).

(** The batches the run has sent to a sentiment model, oldest first. *)
Definition classified (k : kernel) : list (list pystr) :=
  omap (λ a, match a with Classified _ ts => Some ts | _ => None end)
    (rev (done k)).

(** The prompts the run has sent to generation, as encoded, and the
    sequences it has sent to decoding, oldest first. *)
Definition generated (k : kernel) : list tensor :=
  omap (λ a, match a with Generated _ t _ _ _ _ => Some t | _ => None end)
    (rev (done k)).

Definition decoded (k : kernel) : list (list Z) :=
  omap (λ a, match a with Decoded _ ids _ => Some ids | _ => None end)
    (rev (done k)).

(** The two lines the loop of Task 1 prints for a pair. *)
Definition report (pair : pystr * sent_item) : list (list out_piece) :=
  [[Plain (Lit (lit "Text: ")); Plain (Text pair.1)];
   [Plain (Lit (lit "  Sentiment: "));
    Plain (Text (dict_get label_mapping (sa_label pair.2) (lit "unknown")));
    Plain (Lit (lit " | Confidence: ")); Plain (Fixed2 (sa_score pair.2));
    Plain (Lit nl)]].

(** What Task 1 prints before its loop. *)
Definition preamble : list (list out_piece) :=
  [[Plain (Lit (lit "Defining input texts..."))];
   [Plain (Lit (lit "Input Texts: ")); ReprTexts texts; Plain (Lit nl)];
   [Plain (Lit (lit "Performing sentiment analysis..."))];
   [Plain (Lit (nl ++ lit "--- Sentiment Analysis Results ---" ++ nl))]].

End Tasks.

(** What one pass of the loop binds. *)
Definition loop_bindings (g : gmap string Tasks.obj)
    (pair : pystr * sent_item) : gmap string Tasks.obj :=
  <["score" := Tasks.OFloat (sa_score pair.2)]>
    (<["sentiment"
       := Tasks.OStr (Tasks.dict_get Tasks.label_mapping (sa_label pair.2)
                        (lit "unknown"))]>
       (<["result" := Tasks.OResult pair.2]>
          (<["text" := Tasks.OStr pair.1]> g))).

(** The labels of the notebook's saved output for Task 1. *)
Definition labels_recorded : list sent_item :=
  [SentItem (lit "LABEL_2") recorded_confidence;
   SentItem (lit "LABEL_0") recorded_confidence;
   SentItem (lit "LABEL_1") recorded_confidence;
   SentItem (lit "LABEL_2") recorded_confidence;
   SentItem (lit "LABEL_0") recorded_confidence].

(** A world for the two tasks in which the sentiment model answers for the
    first [n] texts only and generation gives [n] sequences at most. *)
Definition answering (n : nat) : Tasks.services := {|
  Tasks.load := λ _, None;
  Tasks.classify := λ _ _, Ok (take n labels_recorded);
  Tasks.from_pretrained := λ _ _, None;
  Tasks.encode := λ _ _ _, Ok [[5492; 15772]];
  Tasks.generate := λ _ inputs _ _ _ _, Ok (take n [[5492; 15772; 383]]);
  Tasks.decode := λ _ _ _, Ok (lit "Please translate. The")
|}.

(* ------------------------------------------------------------------ *)
(** ** Text *)

Lemma lstrip_split s :
  ∃ pre, s = pre ++ lstrip s ∧ forallb isspace pre = true.
Proof.
  induction s as [|c s [pre [Heq Hpre]]]; [by exists []|].
  cbn [lstrip]. destruct (isspace c) eqn:Hc.
  - exists (c :: pre). cbn. rewrite Hc, Hpre. by rewrite <- Heq.
  - by exists [].
Qed.

Lemma lstrip_head s c t : lstrip s = c :: t → isspace c = false.
Proof.
  induction s as [|a s IH]; [done|]. cbn [lstrip].
  destruct (isspace a) eqn:Ha; [done|]. by intros [= <- _].
Qed.

Lemma lstrip_suffix_last s t c : lstrip s = t ++ [c] → ∃ t', s = t' ++ [c].
Proof.
  destruct (lstrip_split s) as [pre [Heq _]]. intros Hl.
  exists (pre ++ t). by rewrite Heq at 1; rewrite Hl, app_assoc.
Qed.

Lemma rstrip_split s :
  ∃ post, s = rstrip s ++ post ∧ forallb isspace post = true.
Proof.
  unfold rstrip. destruct (lstrip_split (rev s)) as [pre [Heq Hpre]].
  exists (rev pre). split.
  - rewrite <- rev_app_distr, <- Heq. by rewrite rev_involutive.
  - rewrite forallb_forall in *. intros x Hx. apply Hpre.
    by apply in_rev.
Qed.

Lemma rstrip_last s t c : rstrip s = t ++ [c] → isspace c = false.
Proof.
  unfold rstrip. intros H. apply (f_equal (@rev N)) in H.
  rewrite rev_involutive, rev_app_distr in H. cbn in H.
  by eapply lstrip_head.
Qed.

(** [strip] cuts a run of whitespace off each end and nothing else. *)
Lemma strip_split s :
  ∃ pre post, s = pre ++ strip s ++ post
    ∧ forallb isspace pre = true ∧ forallb isspace post = true.
Proof.
  unfold strip. destruct (rstrip_split s) as [post [Hs Hpost]].
  destruct (lstrip_split (rstrip s)) as [pre [Hr Hpre]].
  exists pre, post. split; [|done].
  rewrite app_assoc, <- Hr. exact Hs.
Qed.

Lemma strip_head s c t : strip s = c :: t → isspace c = false.
Proof. apply lstrip_head. Qed.

Lemma strip_last s t c : strip s = t ++ [c] → isspace c = false.
Proof.
  unfold strip. intros H. apply lstrip_suffix_last in H as [t' Ht'].
  by eapply rstrip_last.
Qed.

Lemma instruction_of_template s :
  instruction_of s = substitute (lit "{summary}") s spec_template.
Proof. reflexivity. Qed.

(** The notebook's sentence holds the mask marker; the sequence its saved
    output shows for the first candidate does not. *)
Example recorded_sequence_has_no_mask :
  contains masked_sentence (lit "[MASK]") = true
  ∧ contains recorded_unmasked (lit "[MASK]") = false.
Proof. by vm_compute. Qed.

(* ------------------------------------------------------------------ *)
(** ** The cells, outcome by outcome *)

Lemma list_getitem_0_nil {A} : list_getitem (@nil A) 0 = None.
Proof. reflexivity. Qed.

Lemma list_getitem_0_cons {A} (x : A) l : list_getitem (x :: l) 0 = Some x.
Proof.
  unfold list_getitem. cbn [length nth_error Z.to_nat Z.leb Z.compare andb].
  replace (0 <? Z.of_nat (S (length l))) with true; [done|].
  symmetry. apply Z.ltb_lt. lia.
Qed.

Lemma subscript_run {A} name (l : list A) st :
  subscript name l 0 st =
  match l with
  | [] => (Raised index_error,
           State (globals st) (EvSubscript name 0 0 :: log st))
  | x :: l' =>
      (Ok x, State (globals st) (EvSubscript name 0 (length l) :: log st))
  end.
Proof.
  unfold subscript, bind, emit, ret, raise. destruct l as [|x l'].
  - by rewrite list_getitem_0_nil.
  - by rewrite list_getitem_0_cons.
Qed.

(** Unfolding the monad and reducing what has become a redex. *)
Ltac run_cell :=
  unfold bind, print, emit, assign, load_str, ret, raise;
  cbn beta iota zeta delta [globals log].

(** A cell opens with a print and the loading of its model; when the
    loading raises, so does the cell, there and then. *)
Lemma load_fails w line task model device (k : pipe → M unit) st e :
  hub_load w (Pipe task model device) = Some e →
  (print line ;;; let* p := pipeline w task model device in k p) st
  = (Raised e,
     State (globals st)
       (EvLoad (Pipe task model device) :: EvPrint line :: log st)).
Proof. intros H. unfold pipeline. run_cell. by rewrite H. Qed.

Lemma step0_run st :
  step0_setup st =
  (Ok tt,
   State (globals st)
     (EvSetEnv (lit "TOKENIZERS_PARALLELISM") (lit "false") :: log st)).
Proof. reflexivity. Qed.

Lemma step1_run w st :
  step1_fill_mask w st =
  let l0 := EvLoad mask_filler_pipe
            :: EvPrint [Lit (lit "Step 1: Performing fill-mask task...")]
            :: log st in
  match hub_load w mask_filler_pipe with
  | Some e => (Raised e, State (globals st) l0)
  | None =>
      let g1 := <["masked_sentence" := VStr masked_sentence]>
                  (<["mask_filler" := VPipeline mask_filler_pipe]>
                     (globals st)) in
      let l1 := EvInfer mask_filler_pipe (FillMask masked_sentence 1) :: l0 in
      match fill_mask w mask_filler_pipe masked_sentence 1 with
      | Raised e => (Raised e, State g1 l1)
      | Ok fill_results =>
          let g2 := <["fill_results" := VFillResults fill_results]> g1 in
          let l2 := EvSubscript "fill_results" 0 (length fill_results) :: l1 in
          match fill_results with
          | [] => (Raised index_error, State g2 l2)
          | top :: _ =>
              (Ok tt,
               State (<["unmasked_sentence" := VStr (fm_sequence top)]> g2)
                 (EvPrint [Lit (lit "Unmasked Sentence: ");
                           Text (fm_sequence top); Lit nl]
                  :: EvPrint [Lit (lit "Input Sentence: ");
                              Text masked_sentence]
                  :: l2))
          end
      end
  end.
Proof.
  unfold step1_fill_mask, pipeline, infer. fold mask_filler_pipe.
  run_cell. destruct (hub_load w mask_filler_pipe) as [e|]; [done|].
  run_cell.
  destruct (fill_mask w mask_filler_pipe masked_sentence 1) as [l|e];
    [|done].
  run_cell. rewrite subscript_run. by destruct l.
Qed.

Lemma step2_run w st u :
  globals st !! "unmasked_sentence" = Some (VStr u) →
  step2_generate w st =
  let l0 := EvLoad text_generator_pipe
            :: EvPrint [Lit (lit "Step 2: Generating text with GPT-2...")]
            :: log st in
  match hub_load w text_generator_pipe with
  | Some e => (Raised e, State (globals st) l0)
  | None =>
      let g1 := <["text_generator" := VPipeline text_generator_pipe]>
                  (globals st) in
      let l1 := EvInfer text_generator_pipe (TextGeneration u 100 1 true)
                :: l0 in
      match text_generation w text_generator_pipe u 100 1 true with
      | Raised e => (Raised e, State g1 l1)
      | Ok generated_texts =>
          let g2 := <["generated_texts" := VGenerated generated_texts]> g1 in
          let l2 := EvSubscript "generated_texts" 0 (length generated_texts)
                    :: l1 in
          match generated_texts with
          | [] => (Raised index_error, State g2 l2)
          | first :: _ =>
              (Ok tt,
               State (<["generated_text"
                        := VStr (tg_generated_text first)]> g2)
                 (EvPrint [Lit (lit "Generated Text: ");
                           Text (tg_generated_text first); Lit nl]
                  :: l2))
          end
      end
  end.
Proof.
  intros Hu. unfold step2_generate, pipeline, infer.
  fold text_generator_pipe.
  run_cell. destruct (hub_load w text_generator_pipe) as [e|]; [done|].
  run_cell. rewrite lookup_insert_ne, Hu by done. run_cell.
  destruct (text_generation w text_generator_pipe u 100 1 true) as [l|e];
    [|done].
  run_cell. rewrite subscript_run. by destruct l.
Qed.

Lemma step3_run w st t :
  globals st !! "generated_text" = Some (VStr t) →
  step3_sentiment w st =
  let l0 := EvLoad sentiment_pipe
            :: EvPrint [Lit (lit "Step 3: Analyzing sentiment...")]
            :: log st in
  match hub_load w sentiment_pipe with
  | Some e => (Raised e, State (globals st) l0)
  | None =>
      let g1 := <["sentiment_analyzer" := VPipeline sentiment_pipe]>
                  (globals st) in
      let l1 := EvInfer sentiment_pipe (TextClassification t) :: l0 in
      match text_classification w sentiment_pipe t with
      | Raised e => (Raised e, State g1 l1)
      | Ok sentiment_results =>
          let g2 := <["sentiment_results" := VSentiments sentiment_results]>
                      g1 in
          let n := length sentiment_results in
          let l2 := EvSubscript "sentiment_results" 0 n :: l1 in
          match sentiment_results with
          | [] => (Raised index_error, State g2 l2)
          | r0 :: _ =>
              (Ok tt,
               State (<["confidence" := VFloat (sa_score r0)]>
                        (<["sentiment" := VStr (sa_label r0)]> g2))
                 (EvPrint [Lit (lit "Sentiment: "); Text (sa_label r0);
                           Lit (lit " | Confidence: "); Fixed2 (sa_score r0);
                           Lit nl]
                  :: EvSubscript "sentiment_results" 0 n :: l2))
          end
      end
  end.
Proof.
  intros Ht. unfold step3_sentiment, pipeline, infer. fold sentiment_pipe.
  run_cell. destruct (hub_load w sentiment_pipe) as [e|]; [done|].
  run_cell. rewrite lookup_insert_ne, Ht by done. run_cell.
  destruct (text_classification w sentiment_pipe t) as [l|e]; [|done].
  run_cell. rewrite subscript_run. destruct l as [|r0 l]; [done|].
  by rewrite subscript_run.
Qed.

Lemma step4_run w st t :
  globals st !! "generated_text" = Some (VStr t) →
  step4_summarize w st =
  let l0 := EvLoad summarizer_pipe
            :: EvPrint [Lit (lit "Step 4: Summarizing the text...")]
            :: log st in
  match hub_load w summarizer_pipe with
  | Some e => (Raised e, State (globals st) l0)
  | None =>
      let g1 := <["summarizer" := VPipeline summarizer_pipe]> (globals st) in
      let l1 := EvInfer summarizer_pipe (Summarization t 100 10 false)
                :: l0 in
      match summarization w summarizer_pipe t 100 10 false with
      | Raised e => summarize_failed e (State g1 l1)
      | Ok summary =>
          let g2 := <["summary" := VSummaries summary]> g1 in
          let l2 := EvSubscript "summary" 0 (length summary) :: l1 in
          match summary with
          | [] => summarize_failed index_error (State g2 l2)
          | first :: _ =>
              (Ok tt,
               State (<["summary_text" := VStr (sm_summary_text first)]> g2)
                 (EvPrint [Lit (lit "Summary: ");
                           Text (sm_summary_text first)]
                  :: l2))
          end
      end
  end.
Proof.
  intros Ht. unfold step4_summarize, pipeline, infer. fold summarizer_pipe.
  unfold try_except, summarize_failed.
  run_cell. destruct (hub_load w summarizer_pipe) as [e|]; [done|].
  run_cell. rewrite lookup_insert_ne, Ht by done. run_cell.
  destruct (summarization w summarizer_pipe t 100 10 false) as [l|e].
  - run_cell. rewrite subscript_run. destruct l; [|done].
    by destruct (isinstance index_error Exception).
  - run_cell. by destruct (isinstance e Exception).
Qed.

Lemma isinstance_process_error rc cmd out err :
  isinstance (ProcessError rc cmd out err) CalledProcessError = true.
Proof. reflexivity. Qed.

Lemma generate_question_run w s st :
  generate_question_with_instruction w s st =
  match os_process w ollama_command (instruction_of s) with
  | LaunchFailed e =>
      if isinstance e CalledProcessError
      then (Ok fallback_question,
            State (globals st)
              (EvPrint [Lit (lit "Error using Ollama: "); ExnText e]
               :: asked s st))
      else (Raised e, State (globals st) (asked s st))
  | Exited rc out err =>
      if rc =? 0
      then (Ok (strip out),
            State (globals st)
              (EvPrint [Lit (lit "Generated Question: "); Text (strip out)]
               :: asked s st))
      else (Ok fallback_question,
            State (globals st)
              (EvPrint [Lit (lit "Error using Ollama: ");
                        ExnText (ProcessError rc ollama_command out err)]
               :: asked s st))
  end.
Proof.
  unfold generate_question_with_instruction, try_except, subprocess_run,
    bind, print, emit, ret, raise, asked.
  cbn [globals log].
  destruct (os_process w ollama_command (instruction_of s)) as [e|rc out err].
  - destruct (isinstance e CalledProcessError); reflexivity.
  - destruct (rc =? 0); cbn [andb negb stdout globals log].
    + reflexivity.
    + rewrite isinstance_process_error. reflexivity.
Qed.

Lemma step5_run w st s :
  globals st !! "summary_text" = Some (VStr s) →
  step5_question w st =
  match generate_question_with_instruction w s st with
  | (Ok q, st') =>
      (Ok tt, State (<["question" := VStr q]> (globals st')) (log st'))
  | (Raised e, st') => (Raised e, st')
  end.
Proof.
  intros Hs. unfold step5_question, bind, load_str, assign. rewrite Hs.
  by destruct (generate_question_with_instruction w s st) as [[q|e] st'].
Qed.

Lemma step6_run w st s q :
  globals st !! "summary_text" = Some (VStr s) →
  globals st !! "question" = Some (VStr q) →
  step6_answer w st =
  match hub_load w qa_pipe with
  | Some e =>
      (Raised e,
       State (globals st)
         (EvLoad qa_pipe
          :: EvPrint [Lit (lit "Step 6: Question answering task...")]
          :: log st))
  | None =>
      match question_answering w qa_pipe q s with
      | Ok r =>
          (Ok tt,
           State (<["answer" := VStr (qa_answer r)]>
                    (<["qa_result" := VAnswer r]> (qa_ready st s)))
             (EvPrint [Lit (lit "Answer: "); Text (qa_answer r); Lit nl]
              :: qa_asked st q s))
      | Raised e => (Raised e, State (qa_ready st s) (qa_asked st q s))
      end
  end.
Proof.
  intros Hs Hq.
  unfold step6_answer, pipeline, infer, bind, load_str, assign, print, emit,
    ret, raise, qa_ready, qa_asked.
  fold qa_pipe. cbn [globals log].
  destruct (hub_load w qa_pipe) as [e|]; [done|]. cbn [globals log].
  rewrite lookup_insert_ne, Hs by done. cbn [globals log].
  rewrite !lookup_insert_ne, Hq by done.
  by destruct (question_answering w qa_pipe q s).
Qed.

(* ------------------------------------------------------------------ *)
(** ** Running the cells in order *)

Lemma run_all_cons c cs st :
  run_all (c :: cs) st =
  match c st with
  | (Ok _, st') => run_all cs st'
  | (Raised e, st') => (Raised e, st')
  end.
Proof. reflexivity. Qed.

Lemma run_all_app pre post st :
  run_all (pre ++ post) st =
  match run_all pre st with
  | (Ok _, st') => run_all post st'
  | (Raised e, st') => (Raised e, st')
  end.
Proof.
  revert st. induction pre as [|c pre IH]; intros st; [done|].
  cbn [app]. rewrite !run_all_cons.
  destruct (c st) as [[[]|e] st']; [apply IH|done].
Qed.

(** A cell that raises ends the run: no later cell is entered. *)
Lemma run_all_abort pre c post st0 st e st' :
  run_all pre st0 = (Ok tt, st) →
  c st = (Raised e, st') →
  run_all (pre ++ c :: post) st0 = (Raised e, st').
Proof.
  intros Hpre Hc. by rewrite run_all_app, Hpre, run_all_cons, Hc.
Qed.

Lemma pair_with_snd {A B} (p : A * B) (a : A) : fst p = a → p = (a, snd p).
Proof. destruct p. by intros <-. Qed.

(** Looking a name up under the assignments made since. *)
Ltac lookup_global :=
  cbn [globals];
  repeat first
    [ rewrite lookup_insert_eq
    | rewrite lookup_insert_ne by done
    | rewrite lookup_empty ];
  try done.

(** One more cell of the run, for a cell whose input is bound. *)
Ltac enter_cell lem :=
  rewrite run_all_cons;
  first [ rewrite lem | erewrite lem by lookup_global ];
  cbv zeta; cbn [globals log].

(** Asking the world for the next answer. *)
Ltac ask_world :=
  match goal with
  | |- context [match hub_load ?w ?p with _ => _ end] =>
      destruct (hub_load w p) eqn:?
  | |- context [match fill_mask ?w ?p ?x ?k with _ => _ end] =>
      destruct (fill_mask w p x k) as [[|? ?]|?] eqn:?
  | |- context [match text_generation ?w ?p ?x ?a ?b ?c with _ => _ end] =>
      destruct (text_generation w p x a b c) as [[|? ?]|?] eqn:?
  | |- context [match text_classification ?w ?p ?x with _ => _ end] =>
      destruct (text_classification w p x) as [[|? ?]|?] eqn:?
  | |- context [match summarization ?w ?p ?x ?a ?b ?c with _ => _ end] =>
      destruct (summarization w p x a b c) as [[|? ?]|?] eqn:?
  | |- context [match question_answering ?w ?p ?q ?c with _ => _ end] =>
      destruct (question_answering w p q c) eqn:?
  | |- context [match os_process ?w ?c ?i with _ => _ end] =>
      destruct (os_process w c i) eqn:?
  | |- context [if isinstance ?e ?c then _ else _] =>
      destruct (isinstance e c) eqn:?
  | |- context [if (?rc =? 0) then _ else _] =>
      destruct (rc =? 0) eqn:?
  end.

(** The whole chain from a fresh kernel, one answer of the world at a
    time. *)
Ltac run_chain :=
  unfold chain, cells;
  enter_cell step0_run;
  enter_cell step1_run; repeat ask_world;
  try (enter_cell step2_run; repeat ask_world;
  try (enter_cell step3_run; repeat ask_world;
  try (enter_cell step4_run; unfold summarize_failed; repeat ask_world;
  try (enter_cell step5_run; rewrite generate_question_run; repeat ask_world;
  try (enter_cell step6_run; unfold qa_ready, qa_asked;
       repeat ask_world)))));
  cbn [run_all ret snd fst globals log].

Ltac note_lookup g k :=
  let H := fresh "Hlk" in
  let v := fresh "v" in
  evar (v : option pyval);
  assert (H : g !! k = v) by (subst g v; lookup_global; reflexivity);
  subst v.

(** The five names of the hand-off, looked up once in the last
    namespace. *)
Ltac summarize_globals :=
  match goal with
  | |- Forall (handed_over _ ?G) _ ∧ bound_to_outputs _ ?G =>
      let g := fresh "g" in
      set (g := G);
      note_lookup g "unmasked_sentence";
      note_lookup g "generated_text";
      note_lookup g "sentiment";
      note_lookup g "summary_text";
      note_lookup g "question";
      clearbody g
  end.

(** Step 5 returns only with [question] bound and nothing else changed. *)
Lemma step5_returns w st s st5 :
  globals st !! "summary_text" = Some (VStr s) →
  step5_question w st = (Ok tt, st5) →
  ∃ q, globals st5 = <["question" := VStr q]> (globals st)
       ∧ launches (log st5)
         = EvSubprocess ollama_command (instruction_of s) true true true
           :: launches (log st).
Proof.
  intros Hs. rewrite (step5_run w st s Hs), generate_question_run.
  repeat ask_world; intros [= <-]; by eexists.
Qed.

(* ------------------------------------------------------------------ *)
(** ** The fallback question (C1) *)

(** C1.  Whatever the summary, when the [ollama] process ends with a
    non-zero exit status, [generate_question_with_instruction] catches the
    [CalledProcessError] that [subprocess.run] raises for it and returns
    the string "What are the key points mentioned in the summary?"; the
    process has been launched once and is not launched again; step 5 binds
    that string to [question], and step 6 asks its model that question on
    the summary. *)
Theorem nonzero_exit_falls_back w st s rc out err :
  os_process w ollama_command (instruction_of s) = Exited rc out err →
  rc ≠ 0 →
  (∃ st',
     generate_question_with_instruction w s st
     = (Ok (lit "What are the key points mentioned in the summary?"), st')
     ∧ globals st' = globals st
     ∧ EvPrint [Lit (lit "Error using Ollama: ");
                ExnText (ProcessError rc ollama_command out err)] ∈ log st'
     ∧ launches (log st')
       = EvSubprocess ollama_command (instruction_of s) true true true
         :: launches (log st))
  ∧ (globals st !! "summary_text" = Some (VStr s) →
     hub_load w qa_pipe = None →
     ∃ st5,
       step5_question w st = (Ok tt, st5)
       ∧ globals st5 !! "question"
         = Some (VStr (lit "What are the key points mentioned in the summary?"))
       ∧ EvInfer qa_pipe
           (QuestionAnswering
              (lit "What are the key points mentioned in the summary?") s)
         ∈ log (snd (step6_answer w st5))).
Proof.
  intros Hout Hrc.
  assert (Hrun := generate_question_run w s st). rewrite Hout in Hrun.
  apply Z.eqb_neq in Hrc. rewrite Hrc in Hrun.
  split.
  - eexists. split; [exact Hrun|]. cbn [globals log].
    split; [done|]. split; [left|reflexivity].
  - intros Hs Hload. rewrite (step5_run w st s Hs), Hrun.
    eexists. split; [reflexivity|]. cbn [globals log].
    split; [by rewrite lookup_insert_eq|].
    rewrite (step6_run w _ s fallback_question), Hload;
      [|by cbn [globals]; rewrite lookup_insert_ne
       |by cbn [globals]; rewrite lookup_insert_eq].
    destruct (question_answering w qa_pipe fallback_question s);
      cbn [snd log].
    + right. left.
    + left.
Qed.

Lemma nonzero_exit_falls_back_witness :
  os_process missing_model ollama_command (instruction_of recorded_summary)
  = Exited 1 [] (lit "Error: model not found")
  ∧ fst (generate_question_with_instruction missing_model recorded_summary
           (summarized recorded_summary))
    = Ok (lit "What are the key points mentioned in the summary?")
  ∧ fst (step5_question missing_model (summarized recorded_summary)) = Ok tt.
Proof.
  destruct (nonzero_exit_falls_back missing_model
              (summarized recorded_summary) recorded_summary
              1 [] (lit "Error: model not found"))
    as [[st' [Hrun _]] Hstep]; [reflexivity|lia|].
  split; [reflexivity|]. split.
  - by rewrite Hrun.
  - destruct Hstep as [st5 [H5 _]]; [reflexivity..|]. by rewrite H5.
Defined.

(* ------------------------------------------------------------------ *)
(** ** The summary sentinel (C2) *)

(** [KeyboardInterrupt] is not an [Exception]: raised by the summarizer it
    leaves step 4 and the chain, and [summary_text] stays unbound. *)
Lemma keyboard_interrupt_is_not_replaced :
  summarization interrupted summarizer_pipe recorded_generated 100 10 false
  = Raised (Exc KeyboardInterrupt [])
  ∧ fst (step4_summarize interrupted (generated recorded_generated))
    = Raised (Exc KeyboardInterrupt [])
  ∧ fst (chain interrupted fresh) = Raised (Exc KeyboardInterrupt [])
  ∧ globals (snd (chain interrupted fresh)) !! "summary_text" = None
  ∧ ¬ every_exception_is_replaced.
Proof.
  split; [reflexivity|]. split; [by vm_compute|]. split; [by vm_compute|].
  split; [by vm_compute|].
  intros H.
  destruct (H interrupted (generated recorded_generated) recorded_generated
              (Exc KeyboardInterrupt []) eq_refl eq_refl eq_refl)
    as [st4 [Hrun _]].
  apply (f_equal fst) in Hrun. vm_compute in Hrun. discriminate Hrun.
Qed.

(** C2, as the code has it.  When the summarizer raises an exception that
    is an instance of [Exception], step 4 catches it, binds [summary_text]
    to "No summary available." and ends normally; step 5 then builds its
    instruction from that string, and when it returns, step 6 binds
    [context] to the same string and asks its model with it as the
    context.  An exception that is not an instance of [Exception] leaves
    step 4 as it came, with no binding of [summary_text]. *)
Theorem summarizer_exception_gives_sentinel w st t e :
  globals st !! "generated_text" = Some (VStr t) →
  hub_load w summarizer_pipe = None →
  summarization w summarizer_pipe t 100 10 false = Raised e →
  (isinstance e Exception = true →
   ∃ st4,
     step4_summarize w st = (Ok tt, st4)
     ∧ globals st4 !! "summary_text"
       = Some (VStr (lit "No summary available."))
     ∧ launches (log (snd (step5_question w st4)))
       = EvSubprocess ollama_command
           (instruction_of (lit "No summary available.")) true true true
         :: launches (log st)
     ∧ ∀ st5,
         step5_question w st4 = (Ok tt, st5) →
         hub_load w qa_pipe = None →
         ∃ q,
           globals st5 !! "question" = Some (VStr q)
           ∧ EvInfer qa_pipe
               (QuestionAnswering q (lit "No summary available."))
             ∈ log (snd (step6_answer w st5))
           ∧ globals (snd (step6_answer w st5)) !! "context"
             = Some (VStr (lit "No summary available.")))
  ∧ (isinstance e Exception = false →
     ∃ st', step4_summarize w st = (Raised e, st')
            ∧ globals st' !! "summary_text" = globals st !! "summary_text").
Proof.
  intros Ht Hload Hraise.
  assert (H4 := step4_run w st t Ht). cbv zeta in H4.
  rewrite Hload, Hraise in H4. unfold summarize_failed in H4.
  split; intros He; rewrite He in H4; cbn [globals log] in H4;
    [|eexists; split; [exact H4|]; cbn [globals];
      by rewrite lookup_insert_ne].
  eexists. split; [exact H4|]. cbn [globals log].
  assert (Hs : ∀ l,
    globals (State (<["summary_text" := VStr no_summary]>
                      (<["summarizer" := VPipeline summarizer_pipe]>
                         (globals st))) l)
      !! "summary_text" = Some (VStr no_summary))
    by (intros l; cbn [globals]; by rewrite lookup_insert_eq).
  split; [by rewrite lookup_insert_eq|]. split.
  - rewrite (step5_run w _ _ (Hs _)), generate_question_run.
    by repeat ask_world.
  - intros st5 H5 Hqa.
    destruct (step5_returns w _ _ _ (Hs _) H5) as [q [Hg _]].
    exists q. split; [by rewrite Hg, lookup_insert_eq|].
    rewrite (step6_run w st5 no_summary q), Hqa.
    + unfold qa_ready, qa_asked.
      destruct (question_answering w qa_pipe q no_summary);
        cbn [snd globals log].
      * split; [right; left|].
        rewrite !lookup_insert_ne by done. by rewrite lookup_insert_eq.
      * split; [left|]. by rewrite lookup_insert_eq.
    + rewrite Hg, lookup_insert_ne by done. apply (Hs []).
    + by rewrite Hg, lookup_insert_eq.
Qed.

Lemma summarizer_exception_gives_sentinel_witness :
  summarization out_of_memory summarizer_pipe recorded_generated 100 10 false
  = Raised (Exc MemoryError (lit "out of memory"))
  ∧ isinstance (Exc MemoryError (lit "out of memory")) Exception = true
  ∧ fst (step4_summarize out_of_memory (generated recorded_generated))
    = Ok tt.
Proof.
  split; [reflexivity|]. split; [reflexivity|].
  destruct (proj1 (summarizer_exception_gives_sentinel out_of_memory
                     (generated recorded_generated) recorded_generated
                     (Exc MemoryError (lit "out of memory"))
                     eq_refl eq_refl eq_refl) eq_refl) as [st4 [Hrun _]].
  by rewrite Hrun.
Defined.

(* ------------------------------------------------------------------ *)
(** ** The hand-off between stages (C3) *)

(** In the recorded run the summarizer is given the generated text of
    stage 2; stage 3 has produced the label "POSITIVE" and a score, and
    neither goes anywhere but to the print. *)
Lemma summarizer_is_not_given_the_sentiment :
  EvInfer summarizer_pipe (Summarization recorded_generated 100 10 false)
  ∈ log (snd (chain recorded fresh))
  ∧ globals (snd (chain recorded fresh)) !! "generated_text"
    = Some (VStr recorded_generated)
  ∧ globals (snd (chain recorded fresh)) !! "sentiment"
    = Some (VStr (lit "POSITIVE"))
  ∧ ¬ handoff_as_specified.
Proof.
  assert (Hin : EvInfer summarizer_pipe
                  (Summarization recorded_generated 100 10 false)
                ∈ log (snd (chain recorded fresh)))
    by (vm_compute; repeat constructor).
  split; [exact Hin|]. split; [by vm_compute|]. split; [by vm_compute|].
  intros H. specialize (H recorded). rewrite Forall_forall in H.
  destruct (H _ Hin) as (name & Hname & Hbound).
  unfold stage3_output in Hname.
  repeat (apply elem_of_cons in Hname as [->|Hname]);
    [vm_compute in Hbound; discriminate Hbound..|].
  by apply elem_of_nil in Hname.
Qed.

(** C3, as the code has it.  In every run of the chain, complete or cut
    short by an exception: the unmasked sentence of stage 1 is the input
    of stage 2; the generated text of stage 2 is the input of stage 3 and
    also of stage 4 (the label and the score of stage 3 are handed to no
    stage); the summary of stage 4, or the sentinel, is what the
    instruction of stage 5 is built from; the question of stage 5 and that
    same summary are the question and the context of stage 6.  The texts
    are handed over as they were emitted. *)
Theorem stage_outputs_are_handed_over w :
  Forall (handed_over stage2_output (globals (snd (chain w fresh))))
    (log (snd (chain w fresh)))
  ∧ bound_to_outputs w (globals (snd (chain w fresh))).
Proof.
  unfold fresh. run_chain.
  all: summarize_globals.
  all: repeat match goal with
              | H : (_ =? 0) = true |- _ => apply Z.eqb_eq in H; subst
              end.
  all: split;
    [ repeat constructor; cbn [handed_over];
      try (exists "generated_text"; split; [by left|]); eauto
    | unfold bound_to_outputs; repeat split; intros; simplify_eq;
      eauto 10 ].
Qed.

(* ------------------------------------------------------------------ *)
(** ** The generated question (C4) *)

(** A standard output that starts with a newline: trimming the end alone
    keeps that newline, the function drops it. *)
Lemma leading_whitespace_is_trimmed_too :
  os_process blank_line_first ollama_command (instruction_of recorded_summary)
  = Exited 0 (nl ++ lit "What caused the policy shift?" ++ nl) []
  ∧ rstrip (nl ++ lit "What caused the policy shift?" ++ nl)
    = nl ++ lit "What caused the policy shift?"
  ∧ fst (generate_question_with_instruction blank_line_first
           recorded_summary fresh)
    = Ok (lit "What caused the policy shift?")
  ∧ ¬ trailing_whitespace_only.
Proof.
  split; [reflexivity|]. split; [reflexivity|]. split; [reflexivity|].
  intros H.
  specialize (H blank_line_first fresh recorded_summary
                (nl ++ lit "What caused the policy shift?" ++ nl) []
                eq_refl).
  vm_compute in H. discriminate H.
Qed.

(** C4, as the code has it.  When the [ollama] process ends with exit
    status 0, the function returns the captured standard output with the
    whitespace at BOTH ends removed ([str.strip]): the output is a run of
    whitespace, then the returned text, then a run of whitespace, and the
    returned text neither starts nor ends with whitespace. *)
Theorem zero_exit_returns_stripped_stdout w st s out err :
  os_process w ollama_command (instruction_of s) = Exited 0 out err →
  fst (generate_question_with_instruction w s st) = Ok (strip out)
  ∧ (∃ pre post, out = pre ++ strip out ++ post
       ∧ forallb isspace pre = true ∧ forallb isspace post = true)
  ∧ (∀ c t, strip out = c :: t → isspace c = false)
  ∧ (∀ t c, strip out = t ++ [c] → isspace c = false).
Proof.
  intros Hout. rewrite generate_question_run, Hout. cbn [Z.eqb fst].
  split; [done|]. split; [apply strip_split|].
  split; [apply strip_head|apply strip_last].
Qed.

(** The stand-in of the specification: "What caused the policy shift?" on
    the standard output comes back as it is. *)
Lemma zero_exit_returns_stripped_stdout_witness :
  os_process policy_shift ollama_command (instruction_of recorded_summary)
  = Exited 0 (lit "What caused the policy shift?") []
  ∧ fst (generate_question_with_instruction policy_shift recorded_summary
           fresh)
    = Ok (lit "What caused the policy shift?").
Proof.
  split; [reflexivity|].
  exact (proj1 (zero_exit_returns_stripped_stdout policy_shift fresh
                  recorded_summary (lit "What caused the policy shift?") []
                  eq_refl)).
Defined.

(* ------------------------------------------------------------------ *)
(** ** The instruction on the standard input (C5) *)

(** C5.  Whatever the summary [s] and whatever the process does, the call
    launches [ollama run llama3.2] once and hands it, as the whole of its
    standard input, the template of the specification with [{summary}]
    replaced by [s]. *)
Theorem stdin_is_the_filled_template w s st :
  launches (log (snd (generate_question_with_instruction w s st)))
  = EvSubprocess [lit "ollama"; lit "run"; lit "llama3.2"]
      (substitute (lit "{summary}") s spec_template) true true true
    :: launches (log st).
Proof.
  rewrite generate_question_run, <- instruction_of_template.
  destruct (os_process w ollama_command (instruction_of s)) as [e|rc out err].
  - by destruct (isinstance e CalledProcessError).
  - by destruct (rc =? 0).
Qed.

(* ------------------------------------------------------------------ *)
(** ** The stages without a handler (C6) *)

(** C6.  An exception raised in the mask-filling, the text-generation, the
    sentiment or the question-answering stage (by the loading of the
    model, by its call or by the subscript of its answer) meets no
    handler: the run of the chain ends with that exception, and the last
    thing the run did is the stage's failed load, call or subscript.  The
    summarizer's call and the [ollama] process are the two calls with a
    handler: step 4 ends normally when the summarizer raises an
    [Exception], and step 5 ends normally when the process exits with a
    non-zero status. *)
Theorem only_summarizer_and_process_are_handled w :
  (∀ stage st e,
     run_all (take (position stage) (cells w)) fresh = (Ok tt, st) →
     stage_raises w stage st e →
     ∃ st' ev older,
       chain w fresh = (Raised e, st')
       ∧ log st' = ev :: older ∧ stage_event stage ev)
  ∧ (∀ st t e,
       globals st !! "generated_text" = Some (VStr t) →
       hub_load w summarizer_pipe = None →
       summarization w summarizer_pipe t 100 10 false = Raised e →
       isinstance e Exception = true →
       fst (step4_summarize w st) = Ok tt)
  ∧ (∀ st s rc out err,
       globals st !! "summary_text" = Some (VStr s) →
       os_process w ollama_command (instruction_of s) = Exited rc out err →
       rc ≠ 0 →
       fst (step5_question w st) = Ok tt).
Proof.
  split; [|split].
  - intros stage st e Hbefore Hraise.
    assert (Hcell : ∃ st' ev older,
      nth (position stage) (cells w) (ret tt) st = (Raised e, st')
      ∧ log st' = ev :: older ∧ stage_event stage ev).
    { destruct stage, Hraise as [Hload|[Hload Hcall]];
        cbn [position cells nth stage_pipe] in *.
      - rewrite step1_run, Hload. cbv zeta. do 3 eexists.
        split; [done|]. split; [done|]. by left.
      - destruct Hcall as [Hcall|[Hcall ->]];
          rewrite step1_run, Hload, Hcall; cbv zeta; do 3 eexists;
          (split; [done|]); (split; [done|]); right;
          [left|right]; by eexists.
      - do 3 eexists. split; [by apply load_fails|].
        split; [done|]. by left.
      - destruct Hcall as (u & Hu & [Hcall|[Hcall ->]]);
          rewrite (step2_run w st u Hu), Hload, Hcall; cbv zeta;
          do 3 eexists; (split; [done|]); (split; [done|]); right;
          [left|right]; by eexists.
      - do 3 eexists. split; [by apply load_fails|].
        split; [done|]. by left.
      - destruct Hcall as (t & Ht & [Hcall|[Hcall ->]]);
          rewrite (step3_run w st t Ht), Hload, Hcall; cbv zeta;
          do 3 eexists; (split; [done|]); (split; [done|]); right;
          [left|right]; by eexists.
      - do 3 eexists. split; [by apply load_fails|].
        split; [done|]. by left.
      - destruct Hcall as (s & q & Hs & Hq & Hcall).
        rewrite (step6_run w st s q Hs Hq), Hload, Hcall.
        unfold qa_asked. do 3 eexists.
        split; [done|]. split; [done|]. right. left. by eexists. }
    destruct Hcell as (st' & ev & older & Hcell & Hlog & Hev).
    exists st', ev, older. split; [|done].
    unfold chain.
    replace (cells w) with
      (take (position stage) (cells w)
       ++ nth (position stage) (cells w) (ret tt)
       :: drop (S (position stage)) (cells w)) at 1
      by (by destruct stage).
    by apply run_all_abort with st.
  - intros st t e Ht Hload Hraise He.
    rewrite (step4_run w st t Ht), Hload, Hraise. unfold summarize_failed.
    by rewrite He.
  - intros st s rc out err Hs Hout Hrc.
    rewrite (step5_run w st s Hs), generate_question_run, Hout.
    apply Z.eqb_neq in Hrc. by rewrite Hrc.
Qed.

Lemma only_summarizer_and_process_are_handled_witness :
  fst (run_all (take 3 (cells sentiment_crash)) fresh) = Ok tt
  ∧ text_classification sentiment_crash sentiment_pipe recorded_generated
    = Raised (Exc RuntimeError (lit "MPS backend out of memory"))
  ∧ fst (chain sentiment_crash fresh)
    = Raised (Exc RuntimeError (lit "MPS backend out of memory")).
Proof.
  split; [by vm_compute|]. split; [reflexivity|].
  destruct (proj1 (only_summarizer_and_process_are_handled sentiment_crash)
              Sentiment
              (snd (run_all (take 3 (cells sentiment_crash)) fresh))
              (Exc RuntimeError (lit "MPS backend out of memory")))
    as (st' & ev & older & Hrun & _).
  - apply pair_with_snd. by vm_compute.
  - right. split; [reflexivity|]. exists recorded_generated.
    split; [by vm_compute|by left].
  - by rewrite Hrun.
Defined.

(* ------------------------------------------------------------------ *)
(** ** One launch per call (C7) *)


(* ------------------------------------------------------------------ *)
(** ** A process that cannot be launched (C9) *)

(** C9.  The handler is for [CalledProcessError] only: when the process
    cannot be launched and [subprocess.run] raises an exception [e] that
    is not a [CalledProcessError], the function raises [e], no fallback
    question is returned, and step 5 raises [e] without binding
    [question]. *)
Theorem launch_failure_propagates w st s e :
  os_process w ollama_command (instruction_of s) = LaunchFailed e →
  isinstance e CalledProcessError = false →
  (∃ st', generate_question_with_instruction w s st = (Raised e, st')
          ∧ globals st' = globals st)
  ∧ (globals st !! "summary_text" = Some (VStr s) →
     ∃ st', step5_question w st = (Raised e, st')
            ∧ globals st' = globals st
            ∧ fst (run_all [step5_question w; step6_answer w] st) = Raised e).
Proof.
  intros Hout He.
  assert (Hrun := generate_question_run w s st).
  rewrite Hout, He in Hrun. split.
  - by eexists.
  - intros Hs. assert (H5 := step5_run w st s Hs). rewrite Hrun in H5.
    eexists. split; [exact H5|]. split; [done|].
    cbn [run_all]. unfold bind at 1. by rewrite H5.
Qed.

Lemma launch_failure_propagates_witness :
  os_process missing_ollama ollama_command (instruction_of recorded_summary)
  = LaunchFailed (Exc FileNotFoundError (lit "ollama"))
  ∧ isinstance (Exc FileNotFoundError (lit "ollama")) CalledProcessError
    = false
  ∧ fst (generate_question_with_instruction missing_ollama recorded_summary
           (summarized recorded_summary))
    = Raised (Exc FileNotFoundError (lit "ollama")).
Proof.
  split; [reflexivity|]. split; [reflexivity|].
  destruct (launch_failure_propagates missing_ollama
              (summarized recorded_summary) recorded_summary
              (Exc FileNotFoundError (lit "ollama")) eq_refl eq_refl)
    as [[st' [Hrun _]] _].
  by rewrite Hrun.
Defined.

(* ------------------------------------------------------------------ *)
(** ** Subscripts (C10) *)

(** C10.  In a world whose models never answer with an empty list, every
    subscript the chain performs is [fill_results[0]],
    [generated_texts[0]], [sentiment_results[0]] or [summary[0]]: the
    index is 0, it is within the bounds of the list, and no other index
    is ever used. *)
Theorem subscripts_are_first_and_in_bounds w :
  answers_nonempty w →
  Forall first_element_in_bounds (log (snd (chain w fresh))).
Proof.
  intros (H1 & H2 & H3 & H4).
  run_chain.
  all: try match goal with
           | H : fill_mask _ _ _ _ = Ok [] |- _ => by destruct (H1 _ _ _ H)
           | H : text_generation _ _ _ _ _ _ = Ok [] |- _ =>
               by destruct (H2 _ _ _ _ _ H)
           | H : text_classification _ _ _ = Ok [] |- _ =>
               by destruct (H3 _ _ H)
           | H : summarization _ _ _ _ _ _ = Ok [] |- _ =>
               by destruct (H4 _ _ _ _ _ H)
           end.
  all: repeat constructor.
  all: try (cbn; set_solver).
  all: cbn [length]; lia.
Qed.

Lemma subscripts_are_first_and_in_bounds_witness :
  answers_nonempty recorded
  ∧ Forall first_element_in_bounds (log (snd (chain recorded fresh))).
Proof.
  assert (H : answers_nonempty recorded) by (by repeat split).
  split; [exact H|].
  exact (subscripts_are_first_and_in_bounds recorded H).
Defined.

(* ------------------------------------------------------------------ *)
(** ** Step 4: what the [try] covers and what it does not *)

Lemma stages_run_cons ev l :
  stages_run (ev :: l)
  = stages_run l ++ match stage_of ev with Some n => [n] | None => [] end.
Proof.
  unfold stages_run. cbn [rev]. rewrite omap_app. cbn.
  by destruct (stage_of ev).
Qed.

(** X1.  [generated_text] is read inside the [try] of step 4: run in a
    kernel where that name is unbound (and the summarizer loads), the cell
    catches the [NameError], binds [summary_text] to "No summary
    available." and ends normally, without calling the summarizer. *)
Theorem step4_unbound_input_gives_sentinel w st :
  globals st !! "generated_text" = None →
  hub_load w summarizer_pipe = None →
  ∃ st4,
    step4_summarize w st = (Ok tt, st4)
    ∧ globals st4 !! "summary_text" = Some (VStr (lit "No summary available."))
    ∧ stages_run (log st4) = stages_run (log st)
    ∧ EvPrint [Lit (lit "Summarization failed: ");
               ExnText (Exc NameError (lit "generated_text"))] ∈ log st4.
Proof.
  intros Hg Hload. unfold step4_summarize, pipeline, try_except.
  fold summarizer_pipe. run_cell. rewrite Hload. run_cell.
  rewrite lookup_insert_ne, Hg by done.
  replace (isinstance (Exc NameError (lit "generated_text")) Exception)
    with true by reflexivity.
  eexists. split; [reflexivity|]. cbn [globals log].
  split; [by rewrite lookup_insert_eq|]. split; [|left].
  rewrite !stages_run_cons. cbn. by rewrite !app_nil_r.
Qed.

Lemma step4_unbound_input_gives_sentinel_witness :
  globals fresh !! "generated_text" = None
  ∧ fst (step4_summarize recorded fresh) = Ok tt
  ∧ globals (snd (step4_summarize recorded fresh)) !! "summary_text"
    = Some (VStr (lit "No summary available.")).
Proof.
  destruct (step4_unbound_input_gives_sentinel recorded fresh
              eq_refl eq_refl) as (st4 & Hrun & Hs & _).
  split; [reflexivity|]. by rewrite Hrun.
Defined.

(** X2.  When the summarizer answers with an empty list, the [IndexError]
    of [summary[0]] is caught like a failure of the call: [summary] stays
    bound to the empty list, [summary_text] is bound to "No summary
    available." and the cell ends normally. *)
Theorem step4_empty_answer_gives_sentinel w st t :
  globals st !! "generated_text" = Some (VStr t) →
  hub_load w summarizer_pipe = None →
  summarization w summarizer_pipe t 100 10 false = Ok [] →
  ∃ st4,
    step4_summarize w st = (Ok tt, st4)
    ∧ globals st4 !! "summary" = Some (VSummaries [])
    ∧ globals st4 !! "summary_text" = Some (VStr (lit "No summary available."))
    ∧ EvPrint [Lit (lit "Summarization failed: ");
               ExnText (Exc IndexError (lit "list index out of range"))]
      ∈ log st4.
Proof.
  intros Ht Hload Hanswer.
  rewrite (step4_run w st t Ht), Hload, Hanswer. cbv zeta.
  unfold summarize_failed.
  replace (isinstance index_error Exception) with true by reflexivity.
  eexists. split; [reflexivity|]. cbn [globals log].
  split; [by rewrite lookup_insert_ne, lookup_insert_eq|].
  split; [by rewrite lookup_insert_eq|left].
Qed.

Lemma step4_empty_answer_gives_sentinel_witness :
  summarization no_summaries summarizer_pipe recorded_generated 100 10 false
  = Ok []
  ∧ fst (step4_summarize no_summaries (generated recorded_generated)) = Ok tt
  ∧ fst (chain no_summaries fresh) = Ok tt.
Proof.
  destruct (step4_empty_answer_gives_sentinel no_summaries
              (generated recorded_generated) recorded_generated
              eq_refl eq_refl eq_refl) as (st4 & Hrun & _).
  split; [reflexivity|]. split; [by rewrite Hrun|by vm_compute].
Defined.

(** X3.  The summarization model is loaded before the [try] of step 4: an
    exception from the loading, of whatever class, leaves the cell and
    ends a run of the chain that has reached step 4; no sentinel is bound
    and nothing of the namespace changes. *)
Theorem summarizer_load_failure_is_not_handled w st0 st e :
  run_all (take 4 (cells w)) st0 = (Ok tt, st) →
  hub_load w summarizer_pipe = Some e →
  ∃ st',
    step4_summarize w st = (Raised e, st')
    ∧ globals st' = globals st
    ∧ chain w st0 = (Raised e, st').
Proof.
  intros Hbefore Hload.
  assert (H4 : step4_summarize w st
               = (Raised e,
                  State (globals st)
                    (EvLoad summarizer_pipe
                     :: EvPrint [Lit (lit "Step 4: Summarizing the text...")]
                     :: log st)))
    by (by apply load_fails).
  eexists. split; [exact H4|]. split; [done|].
  unfold chain.
  change (cells w) with
    (take 4 (cells w) ++ step4_summarize w :: drop 5 (cells w)).
  by apply run_all_abort with st.
Qed.

Lemma summarizer_load_failure_is_not_handled_witness :
  fst (run_all (take 4 (cells summarizer_missing)) fresh) = Ok tt
  ∧ isinstance
      (Exc OSError (lit "facebook/bart-large-cnn is not a local folder"))
      Exception = true
  ∧ fst (chain summarizer_missing fresh)
    = Raised
        (Exc OSError (lit "facebook/bart-large-cnn is not a local folder")).
Proof.
  split; [by vm_compute|]. split; [reflexivity|].
  destruct (summarizer_load_failure_is_not_handled summarizer_missing fresh
              (snd (run_all (take 4 (cells summarizer_missing)) fresh))
              (Exc OSError
                 (lit "facebook/bart-large-cnn is not a local folder")))
    as (st' & _ & _ & Hrun).
  - apply pair_with_snd. by vm_compute.
  - reflexivity.
  - by rewrite Hrun.
Defined.

(* ------------------------------------------------------------------ *)
(** ** Cells run out of order *)



(* ------------------------------------------------------------------ *)
(** ** The question that comes back *)

Lemma lstrip_blank s : forallb isspace s = true → lstrip s = [].
Proof.
  induction s as [|c s IH]; [done|]. cbn [forallb lstrip].
  intros [Hc Hs]%andb_prop. rewrite Hc. by apply IH.
Qed.

Lemma strip_blank s : forallb isspace s = true → strip s = [].
Proof.
  intros H. unfold strip, rstrip. rewrite (lstrip_blank (rev s)); [done|].
  rewrite forallb_forall in *. intros x Hx. apply H. by apply in_rev.
Qed.

(** X5.  A process that exits with status 0 and writes nothing but
    whitespace gives the empty question, not the fallback: the function
    returns the empty string, step 5 binds it to [question], and step 6
    asks its model the empty question. *)
Theorem blank_stdout_gives_empty_question w st s out err :
  os_process w ollama_command (instruction_of s) = Exited 0 out err →
  forallb isspace out = true →
  fst (generate_question_with_instruction w s st) = Ok []
  ∧ (globals st !! "summary_text" = Some (VStr s) →
     hub_load w qa_pipe = None →
     ∃ st5,
       step5_question w st = (Ok tt, st5)
       ∧ globals st5 !! "question" = Some (VStr [])
       ∧ EvInfer qa_pipe (QuestionAnswering [] s)
         ∈ log (snd (step6_answer w st5))).
Proof.
  intros Hout Hblank.
  assert (Hrun := generate_question_run w s st).
  rewrite Hout, (strip_blank out Hblank) in Hrun. cbn [Z.eqb] in Hrun.
  split; [by rewrite Hrun|].
  intros Hs Hload. rewrite (step5_run w st s Hs), Hrun.
  eexists. split; [reflexivity|]. cbn [globals log].
  split; [by rewrite lookup_insert_eq|].
  rewrite (step6_run w _ s []), Hload;
    [|by cbn [globals]; rewrite lookup_insert_ne
     |by cbn [globals]; rewrite lookup_insert_eq].
  destruct (question_answering w qa_pipe [] s); cbn [snd log].
  - right. left.
  - left.
Qed.

Lemma blank_stdout_gives_empty_question_witness :
  os_process silent_ollama ollama_command (instruction_of recorded_summary)
  = Exited 0 (nl ++ nl) []
  ∧ forallb isspace (nl ++ nl) = true
  ∧ fst (generate_question_with_instruction silent_ollama recorded_summary
           fresh) = Ok [].
Proof.
  split; [reflexivity|]. split; [reflexivity|].
  exact (proj1 (blank_stdout_gives_empty_question silent_ollama fresh
                  recorded_summary (nl ++ nl) [] eq_refl eq_refl)).
Defined.

(** X6.  Whenever [generate_question_with_instruction] returns, what it
    returns is the fallback question or the trimmed standard output of a
    process that exited with status 0, and in both cases a text that
    neither starts nor ends with whitespace. *)
Theorem returned_question_is_trimmed w s st q st' :
  generate_question_with_instruction w s st = (Ok q, st') →
  (q = lit "What are the key points mentioned in the summary?"
   ∨ ∃ out err,
       os_process w ollama_command (instruction_of s) = Exited 0 out err
       ∧ q = strip out)
  ∧ (∀ c t, q = c :: t → isspace c = false)
  ∧ (∀ t c, q = t ++ [c] → isspace c = false).
Proof.
  assert (Hfb : (∀ c t, fallback_question = c :: t → isspace c = false)
                ∧ (∀ t c, fallback_question = t ++ [c] → isspace c = false)).
  { split.
    - by intros c t [= <- _].
    - intros t c H. apply (f_equal last) in H. rewrite last_snoc in H.
      vm_compute in H. by injection H as <-. }
  rewrite generate_question_run.
  destruct (os_process w ollama_command (instruction_of s))
    as [e|rc out err] eqn:Hout.
  - destruct (isinstance e CalledProcessError); intros [= <- _].
    split; [by left|exact Hfb].
  - destruct (rc =? 0) eqn:Hrc; intros [= <- _].
    + apply Z.eqb_eq in Hrc as ->. split; [right; by eexists _, _|].
      split; [apply strip_head|apply strip_last].
    + split; [by left|exact Hfb].
Qed.

Lemma returned_question_is_trimmed_witness :
  generate_question_with_instruction recorded recorded_summary fresh
  = (Ok recorded_question,
     snd (generate_question_with_instruction recorded recorded_summary fresh))
  ∧ (∀ c t, recorded_question = c :: t → isspace c = false).
Proof.
  assert (H : generate_question_with_instruction recorded recorded_summary
                fresh
              = (Ok recorded_question,
                 snd (generate_question_with_instruction recorded
                        recorded_summary fresh)))
    by (apply pair_with_snd; by vm_compute).
  split; [exact H|].
  exact (proj1 (proj2 (returned_question_is_trimmed _ _ _ _ _ H))).
Defined.

(* ------------------------------------------------------------------ *)
(** ** The run as a whole *)

(** X7.  In every run of the chain from a fresh kernel the stages call
    their models in order, each at most once, with the one launch of the
    process in fifth place: the stages that have run are a prefix of 1, 2,
    3, 4, 5, 6, and all six when the run ends normally. *)
Theorem stages_run_once_in_order w :
  stages_run (log (snd (chain w fresh))) `prefix_of` [1; 2; 3; 4; 5; 6]%nat
  ∧ (fst (chain w fresh) = Ok tt →
     stages_run (log (snd (chain w fresh))) = [1; 2; 3; 4; 5; 6]%nat).
Proof.
  run_chain.
  all: split; [|try done; by intros _].
  all: cbv [stages_run rev app omap list_omap stage_of].
  all: by eexists.
Qed.






(** X10.  A run of the chain that ends normally ends with [answer] bound
    to the answer field of what the question answerer returned, and that
    model was asked the chain's [question] with the chain's
    [summary_text] as context, which is also what [context] is bound
    to. *)
Theorem complete_run_binds_the_answer w :
  fst (chain w fresh) = Ok tt →
  ∃ q s r,
    globals (snd (chain w fresh)) !! "question" = Some (VStr q)
    ∧ globals (snd (chain w fresh)) !! "summary_text" = Some (VStr s)
    ∧ globals (snd (chain w fresh)) !! "context" = Some (VStr s)
    ∧ question_answering w qa_pipe q s = Ok r
    ∧ globals (snd (chain w fresh)) !! "qa_result" = Some (VAnswer r)
    ∧ globals (snd (chain w fresh)) !! "answer" = Some (VStr (qa_answer r)).
Proof.
  unfold fresh. run_chain.
  all: try done.
  all: intros _; do 3 eexists.
  all: (split; [lookup_global|]); (split; [lookup_global|]);
    (split; [lookup_global|]); (split; [eassumption|]);
    split; lookup_global.
Qed.

Lemma complete_run_binds_the_answer_witness :
  fst (chain recorded fresh) = Ok tt
  ∧ globals (snd (chain recorded fresh)) !! "answer"
    = Some (VStr (lit "reducing greenhouse gas emissions")).
Proof.
  assert (H : fst (chain recorded fresh) = Ok tt) by (by vm_compute).
  split; [exact H|].
  destruct (complete_run_binds_the_answer recorded H)
    as (q & s & r & _ & _ & _ & Hr & _ & Ha).
  rewrite Ha. by injection Hr as <-.
Defined.

(* ------------------------------------------------------------------ *)
(** ** Task 1: the label mapping and the report *)



Lemma show_result_run pair k :
  Tasks.show_result pair k
  = (Ok tt,
     Tasks.Kernel (loop_bindings (Tasks.names k) pair)
       (rev (Tasks.Printed <$> Tasks.report pair) ++ Tasks.done k)).
Proof. by destruct pair. Qed.

Lemma for_each_show_result pairs k :
  Tasks.for_each pairs Tasks.show_result k
  = (Ok tt,
     Tasks.Kernel (foldl loop_bindings (Tasks.names k) pairs)
       (rev (Tasks.Printed <$> flat_map Tasks.report pairs)
        ++ Tasks.done k)).
Proof.
  revert k. induction pairs as [|pair pairs IH]; intros k.
  - by destruct k.
  - cbn [Tasks.for_each flat_map foldl]. unfold Tasks.bind.
    rewrite show_result_run, IH. cbn [Tasks.names Tasks.done].
    do 2 f_equal. rewrite fmap_app, rev_app_distr. by rewrite <- app_assoc.
Qed.

Lemma printed_lines g g' (lines : list (list Tasks.out_piece)) old :
  Tasks.printed (Tasks.Kernel g (rev (Tasks.Printed <$> lines) ++ old))
  = Tasks.printed (Tasks.Kernel g' old) ++ lines.
Proof.
  unfold Tasks.printed. cbn [Tasks.done].
  rewrite rev_app_distr, rev_involutive, omap_app. f_equal.
  induction lines as [|l lines IH]; [done|]. cbn. by rewrite IH.
Qed.

Lemma classified_lines g g' (lines : list (list Tasks.out_piece)) old :
  Tasks.classified (Tasks.Kernel g (rev (Tasks.Printed <$> lines) ++ old))
  = Tasks.classified (Tasks.Kernel g' old).
Proof.
  unfold Tasks.classified. cbn [Tasks.done].
  rewrite rev_app_distr, rev_involutive, omap_app.
  replace (omap _ (Tasks.Printed <$> lines)) with (@nil (list pystr));
    [by rewrite app_nil_r|].
  induction lines as [|l lines IH]; [done|]. by cbn.
Qed.

Lemma report_length pairs :
  length (flat_map Tasks.report pairs) = (2 * length pairs)%nat.
Proof. induction pairs as [|p pairs IH]; [done|]. cbn. lia. Qed.

Lemma task1_run w k results :
  Tasks.load w (Pipe "text-classification"
                  "cardiffnlp/twitter-roberta-base-sentiment" None) = None →
  Tasks.classify w (Pipe "text-classification"
                      "cardiffnlp/twitter-roberta-base-sentiment" None)
    Tasks.texts = Ok results →
  ∃ before g,
    Tasks.task1_sentiment w k
    = (Ok tt,
       Tasks.Kernel (foldl loop_bindings g (zip Tasks.texts results))
         (rev (Tasks.Printed <$> flat_map Tasks.report
                                   (zip Tasks.texts results))
          ++ before))
    ∧ Tasks.printed (Tasks.Kernel g before)
      = Tasks.printed k ++ Tasks.preamble
    ∧ Tasks.classified (Tasks.Kernel g before)
      = Tasks.classified k ++ [Tasks.texts]
    ∧ ∀ n, n ∈ ["text"; "result"; "sentiment"; "score"] →
           g !! n = Tasks.names k !! n.
Proof.
  intros Hload Hanswer.
  unfold Tasks.task1_sentiment, Tasks.pipeline, Tasks.say, Tasks.print.
  unfold Tasks.bind at 1 2. unfold Tasks.emit at 1. rewrite Hload.
  unfold Tasks.ret at 1.
  repeat (unfold Tasks.bind at 1;
          first [unfold Tasks.assign at 1 | unfold Tasks.emit at 1];
          cbn [Tasks.names Tasks.done]).
  unfold Tasks.bind at 1. rewrite Hanswer. unfold Tasks.answer, Tasks.ret.
  repeat (unfold Tasks.bind at 1;
          first [unfold Tasks.assign at 1 | unfold Tasks.emit at 1];
          cbn [Tasks.names Tasks.done]).
  rewrite for_each_show_result. cbn [Tasks.names Tasks.done].
  do 2 eexists. split; [reflexivity|].
  unfold Tasks.printed, Tasks.classified. cbn [Tasks.done rev].
  rewrite !omap_app. cbn. rewrite !app_nil_r, <- !app_assoc.
  split; [done|]. split; [done|].
  intros n Hn. repeat (apply elem_of_cons in Hn as [->|Hn]);
    [by rewrite !lookup_insert_ne by done..|].
  by apply elem_of_nil in Hn.
Qed.

(** X12.  Task 1 sends the five texts to the model in one call and then
    reports the pairs of [zip(texts, results)], in order, two lines a
    pair: when the model answers with fewer results than texts the texts
    without a result are left out, results beyond the fifth are ignored,
    and in no case does the cell fail. *)
Theorem task1_reports_zipped_pairs w k results :
  Tasks.load w (Pipe "text-classification"
                  "cardiffnlp/twitter-roberta-base-sentiment" None) = None →
  Tasks.classify w (Pipe "text-classification"
                      "cardiffnlp/twitter-roberta-base-sentiment" None)
    Tasks.texts = Ok results →
  ∃ k',
    Tasks.task1_sentiment w k = (Ok tt, k')
    ∧ Tasks.printed k'
      = Tasks.printed k ++ Tasks.preamble
        ++ flat_map Tasks.report (zip Tasks.texts results)
    ∧ length (Tasks.printed k')
      = (length (Tasks.printed k) + 4 + 2 * (5 `min` length results))%nat
    ∧ Tasks.classified k' = Tasks.classified k ++ [Tasks.texts].
Proof.
  intros Hload Hanswer.
  destruct (task1_run w k results Hload Hanswer)
    as (before & g & Hrun & Hprinted & Hclassified & _).
  eexists. split; [exact Hrun|].
  rewrite (printed_lines _ g), (classified_lines _ g), Hprinted, Hclassified.
  split; [by rewrite <- app_assoc|]. split; [|done].
  rewrite !length_app, report_length, length_zip.
  change (length Tasks.preamble) with 4%nat.
  change (length Tasks.texts) with 5%nat. lia.
Qed.

Lemma task1_reports_zipped_pairs_witness :
  Tasks.classify (answering 3)
    (Pipe "text-classification"
       "cardiffnlp/twitter-roberta-base-sentiment" None) Tasks.texts
  = Ok (take 3 labels_recorded)
  ∧ fst (Tasks.task1_sentiment (answering 3) Tasks.fresh) = Ok tt
  ∧ length (Tasks.printed
              (snd (Tasks.task1_sentiment (answering 3) Tasks.fresh)))
    = 10%nat.
Proof.
  destruct (task1_reports_zipped_pairs (answering 3) Tasks.fresh
              (take 3 labels_recorded) eq_refl eq_refl)
    as (k' & Hrun & _ & Hlen & _).
  split; [reflexivity|]. rewrite Hrun. split; [done|exact Hlen].
Defined.

Lemma foldl_loop_bindings_last g pairs t r :
  last pairs = Some (t, r) →
  ∃ g', foldl loop_bindings g pairs = loop_bindings g' (t, r).
Proof.
  intros [init ->]%last_Some. rewrite foldl_app. by eexists.
Qed.

(** X13.  After Task 1 the loop variables hold the last pair that was
    reported: [text], [result], [score], and [sentiment] with the mapped
    label.  When the model answers with no result at all the loop is not
    entered and the four names are left as they were (unbound, in a fresh
    kernel). *)
Theorem task1_loop_variables w k results :
  Tasks.load w (Pipe "text-classification"
                  "cardiffnlp/twitter-roberta-base-sentiment" None) = None →
  Tasks.classify w (Pipe "text-classification"
                      "cardiffnlp/twitter-roberta-base-sentiment" None)
    Tasks.texts = Ok results →
  (results = [] →
   ∀ n, n ∈ ["text"; "result"; "sentiment"; "score"] →
        Tasks.names (snd (Tasks.task1_sentiment w k)) !! n
        = Tasks.names k !! n)
  ∧ (∀ t r,
       last (zip Tasks.texts results) = Some (t, r) →
       Tasks.names (snd (Tasks.task1_sentiment w k)) !! "text"
       = Some (Tasks.OStr t)
       ∧ Tasks.names (snd (Tasks.task1_sentiment w k)) !! "result"
         = Some (Tasks.OResult r)
       ∧ Tasks.names (snd (Tasks.task1_sentiment w k)) !! "sentiment"
         = Some (Tasks.OStr
                   (Tasks.dict_get Tasks.label_mapping (sa_label r)
                      (lit "unknown")))
       ∧ Tasks.names (snd (Tasks.task1_sentiment w k)) !! "score"
         = Some (Tasks.OFloat (sa_score r))).
Proof.
  intros Hload Hanswer.
  destruct (task1_run w k results Hload Hanswer)
    as (before & g & Hrun & _ & _ & Hframe).
  rewrite Hrun. cbn [snd Tasks.names]. split.
  - intros ->. by rewrite zip_with_nil_r.
  - intros t r Hlast.
    destruct (foldl_loop_bindings_last g _ t r Hlast) as [g' ->].
    unfold loop_bindings. cbn [fst snd].
    repeat split;
      by rewrite ?lookup_insert_eq, ?lookup_insert_ne, ?lookup_insert_eq
        by done.
Qed.

Lemma task1_loop_variables_witness :
  last (zip Tasks.texts (take 3 labels_recorded))
  = Some (lit "It's okay, does the job but nothing extraordinary.",
          SentItem (lit "LABEL_1") recorded_confidence)
  ∧ Tasks.names (snd (Tasks.task1_sentiment (answering 3) Tasks.fresh))
      !! "sentiment" = Some (Tasks.OStr (lit "neutral"))
  ∧ Tasks.names (snd (Tasks.task1_sentiment (answering 0) Tasks.fresh))
      !! "sentiment" = None.
Proof.
  split; [reflexivity|]. split.
  - destruct (proj2 (task1_loop_variables (answering 3) Tasks.fresh
                       (take 3 labels_recorded) eq_refl eq_refl)
                _ _ eq_refl) as (_ & _ & Hs & _).
    rewrite Hs. by vm_compute.
  - rewrite (proj1 (task1_loop_variables (answering 0) Tasks.fresh
                      [] eq_refl eq_refl) eq_refl "sentiment");
      [reflexivity|set_solver].
Defined.

(* ------------------------------------------------------------------ *)
(** ** Task 2: what is generated from and what is decoded *)

(** Unfolding the monad of the tasks and reducing what has become a
    redex. *)
Ltac run_task :=
  unfold Tasks.bind, Tasks.print, Tasks.emit, Tasks.assign, Tasks.ret,
    Tasks.raise, Tasks.answer;
  cbn beta iota zeta delta [Tasks.names Tasks.done].

(** X14.  Task 2 generates from the encoding of its prompt and decodes
    the first generated sequence only.  When generation answers with an
    empty batch, [outputs[0]] raises an [IndexError] that nothing catches:
    nothing is decoded and [generated_text] is left as it was. *)
Theorem task2_decodes_first_sequence w k inputs outputs :
  Tasks.from_pretrained w "GPT2LMHeadModel" "gpt2" = None →
  Tasks.from_pretrained w "GPT2Tokenizer" "gpt2" = None →
  Tasks.encode w "gpt2" Tasks.input_text "pt" = Ok inputs →
  Tasks.generate w "gpt2" inputs 160 1 2 seven_tenths = Ok outputs →
  Tasks.generated (snd (Tasks.task2_generation w k))
  = Tasks.generated k ++ [inputs]
  ∧ Tasks.decoded (snd (Tasks.task2_generation w k))
    = Tasks.decoded k ++ option_list (head outputs)
  ∧ (outputs = [] →
     fst (Tasks.task2_generation w k) = Raised index_error
     ∧ Tasks.names (snd (Tasks.task2_generation w k)) !! "generated_text"
       = Tasks.names k !! "generated_text")
  ∧ (∀ first rest text,
       outputs = first :: rest →
       Tasks.decode w "gpt2" first true = Ok text →
       fst (Tasks.task2_generation w k) = Ok tt
       ∧ Tasks.names (snd (Tasks.task2_generation w k)) !! "generated_text"
         = Some (Tasks.OStr text)).
Proof.
  intros Hmodel Htokenizer Hencode Hgenerate.
  unfold Tasks.task2_generation, Tasks.load_pretrained, Tasks.subscript.
  run_task. rewrite Hmodel. run_task. rewrite Htokenizer. run_task.
  rewrite Hencode. run_task. rewrite Hgenerate. run_task.
  unfold Tasks.generated, Tasks.decoded.
  destruct outputs as [|first rest].
  - rewrite list_getitem_0_nil. cbn [snd fst Tasks.names Tasks.done rev].
    rewrite !omap_app. cbn. rewrite !app_nil_r.
    split; [done|]. split; [done|]. split; [|by intros ??? [=]].
    intros _. split; [done|]. by rewrite !lookup_insert_ne by done.
  - rewrite list_getitem_0_cons. run_task.
    destruct (Tasks.decode w "gpt2" first true) as [text|e] eqn:Hdecode;
      cbn [snd fst Tasks.names Tasks.done rev];
      rewrite !omap_app; cbn; rewrite ?app_nil_r, <- ?app_assoc;
      (split; [done|]); (split; [done|]); (split; [by intros [=]|]);
      intros first' rest' text' [= <- <-] Hok;
      rewrite Hdecode in Hok; simplify_eq.
    split; [done|]. by rewrite lookup_insert_eq.
Qed.

Lemma task2_decodes_first_sequence_witness :
  Tasks.generate (answering 0) "gpt2" [[5492; 15772]] 160 1 2 seven_tenths
  = Ok []
  ∧ fst (Tasks.task2_generation (answering 0) Tasks.fresh)
    = Raised index_error
  ∧ Tasks.decoded (snd (Tasks.task2_generation (answering 1) Tasks.fresh))
    = [[5492; 15772; 383]].
Proof.
  split; [reflexivity|]. split.
  - exact (proj1 (proj1 (proj2 (proj2
             (task2_decodes_first_sequence (answering 0) Tasks.fresh
                [[5492; 15772]] [] eq_refl eq_refl eq_refl eq_refl)))
             eq_refl)).
  - exact (proj1 (proj2
             (task2_decodes_first_sequence (answering 1) Tasks.fresh
                [[5492; 15772]] [[5492; 15772; 383]]
                eq_refl eq_refl eq_refl eq_refl))).
Defined.
